(** * seller-apis: stock and price reconciliation for two marketplaces

    A shallow embedding of [seller.py] (Ozon) and [market.py] (Yandex Market):
    the quantity and price conversions, the offer-id pagination loops, the
    construction of stock and price records, the chunking generator [divide],
    the [upload_stocks] and [upload_prices] pipelines and the [try] blocks of
    the two [main] functions.

    Conventions.
    - A Python [str] is a [string]: the UTF-8 bytes of the text.  The only
      characters the code itself inspects are ["."], the digits ["0"]..["9"]
      and the literals [">10"] and ["1"]; all of them are ASCII, so working
      on the bytes gives what Python computes on the code points.  The
      builtin [int] also reads whitespace and decimal digits outside ASCII;
      its model reads the code points from the bytes.
    - A Python [int] is a [Z].
    - A call that may raise returns a [result]; a function that changes a list
      it was given by the caller also returns that list as it is afterwards.
    - A feed row ([watch]) is a dictionary read from the spreadsheet; its
      three cells are taken to hold text, on which [str(...)] is the
      identity. *)

From Stdlib Require Import String Ascii List ZArith Lia Bool Permutation.
Import ListNotations.
Local Open Scope string_scope.
Local Open Scope list_scope.
Local Open Scope Z_scope.

(** ** Python primitives *)

Module Py.

Inductive exn : Type :=
| ValueError
| IndexError
| HTTPError
| ConnectionError.

Inductive result (A : Type) : Type :=
| Ok (a : A)
| Raise (e : exn).

Arguments Ok {A} a.
Arguments Raise {A} e.

Definition bind {A B : Type} (r : result A) (k : A -> result B) : result B :=
  match r with
  | Ok a => k a
  | Raise e => Raise e
  end.

Definition map_ok {A B : Type} (f : A -> B) (r : result A) : result B :=
  match r with
  | Ok a => Ok (f a)
  | Raise e => Raise e
  end.

(** [x in lst] on a list of strings. *)
Fixpoint contains (x : string) (lst : list string) : bool :=
  match lst with
  | [] => false
  | y :: rest => if String.eqb y x then true else contains x rest
  end.

(** [lst.remove(x)]: the list without the first item equal to [x].  Python
    raises [ValueError] when there is none; every call in the code is guarded
    by [x in lst], and the list is returned as it is in that case. *)
Fixpoint remove (x : string) (lst : list string) : list string :=
  match lst with
  | [] => []
  | y :: rest => if String.eqb y x then rest else y :: remove x rest
  end.

Definition is_digit (c : ascii) : bool :=
  let n := nat_of_ascii c in (48 <=? n)%nat && (n <=? 57)%nat.

Definition digit_value (c : ascii) : Z :=
  Z.of_nat (nat_of_ascii c) - 48.

(** The ASCII whitespace [int] drops around a number: tab, line feed,
    vertical tab, form feed, carriage return and space. *)
Definition is_space (c : ascii) : bool :=
  let n := nat_of_ascii c in
  ((9 <=? n)%nat && (n <=? 13)%nat) || (n =? 32)%nat.

Fixpoint lstrip (l : list ascii) : list ascii :=
  match l with
  | c :: rest => if is_space c then lstrip rest else l
  | [] => []
  end.

Definition strip (l : list ascii) : list ascii :=
  rev (lstrip (rev (lstrip l))).

(** The digits of an integer literal as [int] reads them: at least one digit,
    and single underscores allowed between two digits.  [prev] tells whether
    the character just read was a digit. *)
Fixpoint int_digits (acc : Z) (prev : bool) (l : list ascii) : option Z :=
  match l with
  | [] => if prev then Some acc else None
  | c :: rest =>
      if is_digit c then int_digits (10 * acc + digit_value c) true rest
      else if Ascii.eqb c "_" && prev then int_digits acc false rest
      else None
  end.

(** [sys.int_info.default_max_str_digits]: the most digits [int] reads from
    a string, unless the interpreter is configured otherwise. *)
Definition int_max_str_digits : Z := 4300.

(** The payload of a UTF-8 continuation byte. *)
Definition continuation (c : ascii) : option N :=
  let n := N_of_ascii c in
  if (128 <=? n)%N && (n <? 192)%N then Some (n - 128)%N else None.

(** The code points of a text, read from its UTF-8 bytes: one to four bytes
    each, in the shortest form.  [None] for bytes that are no UTF-8 text. *)
Fixpoint code_points (l : list ascii) : option (list N) :=
  match l with
  | [] => Some []
  | b0 :: rest =>
      let n0 := N_of_ascii b0 in
      if (n0 <? 128)%N then option_map (cons n0) (code_points rest)
      else if (n0 <? 192)%N then None
      else if (n0 <? 224)%N then
        match rest with
        | b1 :: rest1 =>
            match continuation b1 with
            | Some n1 =>
                let cp := ((n0 - 192) * 64 + n1)%N in
                if (cp <? 128)%N then None
                else option_map (cons cp) (code_points rest1)
            | None => None
            end
        | _ => None
        end
      else if (n0 <? 240)%N then
        match rest with
        | b1 :: b2 :: rest2 =>
            match continuation b1, continuation b2 with
            | Some n1, Some n2 =>
                let cp := (((n0 - 224) * 64 + n1) * 64 + n2)%N in
                if (cp <? 2048)%N then None
                else option_map (cons cp) (code_points rest2)
            | _, _ => None
            end
        | _ => None
        end
      else if (n0 <? 248)%N then
        match rest with
        | b1 :: b2 :: b3 :: rest3 =>
            match continuation b1, continuation b2, continuation b3 with
            | Some n1, Some n2, Some n3 =>
                let cp := ((((n0 - 240) * 64 + n1) * 64 + n2) * 64 + n3)%N in
                if (cp <? 65536)%N || (1114111 <? cp)%N then None
                else option_map (cons cp) (code_points rest3)
            | _, _, _ => None
            end
        | _ => None
        end
      else None
  end.

(** The code points outside ASCII that [int] takes for whitespace. *)
Definition unicode_space (cp : N) : bool :=
  existsb (N.eqb cp) [133; 160; 5760; 8232; 8233; 8239; 8287; 12288]%N
  || ((8192 <=? cp)%N && (cp <=? 8202)%N).

(** The digit 0 of every run of ten decimal digits outside ASCII, in
    Unicode 14, the version of CPython 3.11. *)
Definition decimal_zeros : list N :=
  [1632; 1776; 1984; 2406; 2534; 2662; 2790; 2918; 3046; 3174; 3302; 3430;
   3558; 3664; 3792; 3872; 4160; 4240; 6112; 6160; 6470; 6608; 6784; 6800;
   6992; 7088; 7232; 7248; 42528; 43216; 43264; 43472; 43504; 43600; 44016;
   65296; 66720; 68912; 69734; 69872; 69942; 70096; 70384; 70736; 70864;
   71248; 71360; 71472; 71904; 72016; 72784; 73040; 73120; 92768; 92864;
   93008; 120782; 120792; 120802; 120812; 120822; 123200; 123632; 125264;
   130032]%N.

(** The value of a decimal digit outside ASCII. *)
Definition unicode_decimal (cp : N) : option N :=
  match find (fun zero => (zero <=? cp)%N && (cp <? zero + 10)%N)
             decimal_zeros with
  | Some zero => Some (cp - zero)%N
  | None => None
  end.

(** The character [int] reads for a code point: an ASCII character is read
    as it is, whitespace outside ASCII as a space, a decimal digit outside
    ASCII as the ASCII digit of its value; nothing else is read. *)
Definition read_as (cp : N) : option ascii :=
  if (cp <? 128)%N then Some (ascii_of_N cp)
  else if unicode_space cp then Some " "%char
  else option_map (fun d => ascii_of_N (48 + d)) (unicode_decimal cp).

Fixpoint read_all (cps : list N) : option (list ascii) :=
  match cps with
  | [] => Some []
  | cp :: rest =>
      match read_as cp, read_all rest with
      | Some c, Some text => Some (c :: text)
      | _, _ => None
      end
  end.

(** The ASCII text [int] works on. *)
Definition ascii_text (l : list ascii) : option (list ascii) :=
  match code_points l with
  | Some cps => read_all cps
  | None => None
  end.

(** [int(s)] for a string [s], base 10: whitespace and decimal digits
    outside ASCII are read as spaces and ASCII digits, surrounding
    whitespace is dropped, an optional sign is read, then the digits, of
    which there may be at most [int_max_str_digits], underscores not
    counted.  Anything else raises [ValueError]. *)
Definition int (s : string) : result Z :=
  match ascii_text (list_ascii_of_string s) with
  | None => Raise ValueError
  | Some text =>
      let body := strip text in
      let signed :=
        match body with
        | "-"%char :: rest => (-1, rest)
        | "+"%char :: rest => (1, rest)
        | _ => (1, body)
        end in
      match int_digits 0 false (snd signed) with
      | Some v =>
          if Z.of_nat (length (filter is_digit (snd signed)))
             >? int_max_str_digits
          then Raise ValueError
          else Ok (fst signed * v)
      | None => Raise ValueError
      end
  end.

(** [s.split(sep)] for a one-character separator, on the characters of [s]:
    the pieces between the separators, at least one piece. *)
Fixpoint split (sep : ascii) (l : list ascii) : list (list ascii) :=
  match l with
  | [] => [[]]
  | c :: rest =>
      if Ascii.eqb c sep then [] :: split sep rest
      else
        match split sep rest with
        | piece :: pieces => (c :: piece) :: pieces
        | [] => [[c]]
        end
  end.

(** [re.sub("[^0-9]", "", s)]: every character that is not a digit is
    deleted. *)
Definition sub_non_digits (l : list ascii) : list ascii :=
  filter is_digit l.

(** [range(start, stop, step)] for a positive step, from [start] on; [fuel]
    bounds the number of items. *)
Fixpoint range_up (fuel : nat) (start stop step : Z) : list Z :=
  match fuel with
  | O => []
  | S fuel' =>
      if start <? stop then start :: range_up fuel' (start + step) stop step
      else []
  end.

(** [range(0, stop, step)]: empty for a negative step, [ValueError] for a
    zero step. *)
Definition range0 (stop step : Z) : result (list Z) :=
  if step =? 0 then Raise ValueError
  else if step <? 0 then Ok []
  else Ok (range_up (Z.to_nat stop) 0 stop step).

(** [lst[i:j]] for indices that are not negative. *)
Definition slice {A : Type} (lst : list A) (i j : Z) : list A :=
  firstn (Z.to_nat (j - i)) (skipn (Z.to_nat i) lst).

Definition len {A : Type} (lst : list A) : Z := Z.of_nat (length lst).

(** [list(filter(test, lst))] for a test that may raise. *)
Fixpoint filter_list {A : Type} (test : A -> result bool) (lst : list A)
    : result (list A) :=
  match lst with
  | [] => Ok []
  | x :: rest =>
      match test x with
      | Raise e => Raise e
      | Ok keep =>
          match filter_list test rest with
          | Raise e => Raise e
          | Ok kept => Ok (if keep then x :: kept else kept)
          end
      end
  end.

(** [for x in lst: call(x)] for a call that may raise and whose value is
    dropped. *)
Fixpoint for_each {A B : Type} (call : A -> result B) (lst : list A)
    : result unit :=
  match lst with
  | [] => Ok tt
  | x :: rest =>
      match call x with
      | Raise e => Raise e
      | Ok _ => for_each call rest
      end
  end.

End Py.

Import Py.

Notation "x <- r ;; k" := (bind r (fun x => k))
  (at level 61, r at next level, right associativity).

(** ** The feed *)

(** One row of the supplier's spreadsheet.  The code reads three of its
    columns, with Cyrillic headers: the item code, the quantity descriptor and
    the price text. *)
Record Watch : Type := mkWatch {
  code : string;      (* watch.get("Код") *)
  quantity : string;  (* watch.get("Количество") *)
  price_text : string (* watch.get("Цена") *)
}.

(** ** Conversions shared by the two marketplaces *)

(** The count published for a quantity descriptor: the [if]/[elif]/[else] of
    [create_stocks]. *)
Definition stock_count (count : string) : result Z :=
  if String.eqb count ">10" then Ok 100
  else if String.eqb count "1" then Ok 0
  else int count.

(** [price_conversion]: the digits of the text before the first ["."]. *)
Definition price_conversion (price : string) : string :=
  string_of_list_ascii
    (sub_non_digits (nth 0 (split "." (list_ascii_of_string price)) [])).

(** [divide]: the chunks the generator yields, in order. *)
Definition divide {A : Type} (lst : list A) (n : Z) : result (list (list A)) :=
  indices <- range0 (len lst) n ;;
  Ok (map (fun i => slice lst i (i + n)) indices).

(** ** Building stock records *)

Section CreateStocks.

(** The stock dictionary of a marketplace, built from an offer id and a
    count. *)
Variable Stock : Type.
Variable record : string -> Z -> Stock.

(** The first loop of [create_stocks].  [offer_ids] is the caller's list,
    changed in place by [offer_ids.remove]; the loop returns it as it is
    when the loop ends or raises. *)
Fixpoint match_rows (watch_remnants : list Watch) (offer_ids : list string)
    (stocks : list Stock) : result (list Stock) * list string :=
  match watch_remnants with
  | [] => (Ok stocks, offer_ids)
  | watch :: rest =>
      if contains (code watch) offer_ids then
        match stock_count (quantity watch) with
        | Raise e => (Raise e, offer_ids)
        | Ok stock =>
            match_rows rest (remove (code watch) offer_ids)
              (stocks ++ [record (code watch) stock])
        end
      else match_rows rest offer_ids stocks
  end.

(** The second loop: a record with count 0 for every offer id left. *)
Definition zero_fill (offer_ids : list string) (stocks : list Stock)
    : list Stock :=
  stocks ++ map (fun offer_id => record offer_id 0) offer_ids.

(** [create_stocks]: what the call returns or raises, and the caller's
    [offer_ids] list after the call. *)
Definition create_stocks_with (watch_remnants : list Watch)
    (offer_ids : list string) : result (list Stock) * list string :=
  match match_rows watch_remnants offer_ids [] with
  | (Ok stocks, remaining) => (Ok (zero_fill remaining stocks), remaining)
  | (Raise e, remaining) => (Raise e, remaining)
  end.

End CreateStocks.

Arguments match_rows {Stock} record watch_remnants offer_ids stocks.
Arguments zero_fill {Stock} record offer_ids stocks.
Arguments create_stocks_with {Stock} record watch_remnants offer_ids.

(** ** Building price records *)

Section CreatePrices.

(** The price dictionary of a marketplace, built from a feed row; building
    it may raise. *)
Variable Price : Type.
Variable record : Watch -> result Price.

Fixpoint price_rows (watch_remnants : list Watch) (offer_ids : list string)
    (prices : list Price) : result (list Price) :=
  match watch_remnants with
  | [] => Ok prices
  | watch :: rest =>
      if contains (code watch) offer_ids then
        price <- record watch ;;
        price_rows rest offer_ids (prices ++ [price])
      else price_rows rest offer_ids prices
  end.

Definition create_prices_with (watch_remnants : list Watch)
    (offer_ids : list string) : result (list Price) :=
  price_rows watch_remnants offer_ids [].

End CreatePrices.

Arguments price_rows {Price} record watch_remnants offer_ids prices.
Arguments create_prices_with {Price} record watch_remnants offer_ids.

(** ** seller.py: Ozon *)

Module Seller.

Record Product : Type := mkProduct {
  product_id : Z;
  product_offer_id : string  (* "offer_id" *)
}.

(** The [result] object [get_product_list] returns for one page. *)
Record Page : Type := mkPage {
  items : list Product;
  total : Z;
  last_id : string
}.

(** The marketplace as [get_offer_ids] sees it: the answers the successive
    requests of one run receive, each a page or a failed request
    ([raise_for_status]).  A request that finds no answer left fails with
    [ConnectionError]. *)
Definition Network : Type := list (result Page).

(** The [while True] loop of [get_offer_ids]: every turn sends [last_id],
    receives the next answer and adds its items to [product_list]. *)
Fixpoint fetch_pages (net : Network) (last_id : string)
    (product_list : list Product) : result (list Product) :=
  match net with
  | [] => Raise ConnectionError
  | Raise e :: _ => Raise e
  | Ok some_prod :: net' =>
      let product_list := product_list ++ items some_prod in
      if total some_prod =? len product_list then Ok product_list
      else fetch_pages net' (Seller.last_id some_prod) product_list
  end.

Definition get_offer_ids (net : Network) : result (list string) :=
  product_list <- fetch_pages net "" [] ;;
  Ok (map product_offer_id product_list).

Record Stock : Type := mkStock {
  offer_id : string;
  stock : Z
}.

Definition create_stocks (watch_remnants : list Watch) (offer_ids : list string)
    : result (list Stock) * list string :=
  create_stocks_with mkStock watch_remnants offer_ids.

Record Price : Type := mkPrice {
  auto_action_enabled : string;
  currency_code : string;
  price_offer_id : string;  (* "offer_id" *)
  old_price : string;
  price_value : string      (* "price" *)
}.

Definition price_record (watch : Watch) : result Price :=
  Ok {| auto_action_enabled := "UNKNOWN";
        currency_code := "RUB";
        price_offer_id := code watch;
        old_price := "0";
        price_value := price_conversion (price_text watch) |}.

Definition create_prices (watch_remnants : list Watch) (offer_ids : list string)
    : result (list Price) :=
  create_prices_with price_record watch_remnants offer_ids.

(** The body of the coroutine [upload_stocks].  [update_stocks] is the
    marketplace's answer to one pushed chunk. *)
Definition upload_stocks (net : Network)
    (update_stocks : list Stock -> result unit) (watch_remnants : list Watch)
    : result (list Stock * list Stock) :=
  offer_ids <- get_offer_ids net ;;
  stocks <- fst (create_stocks watch_remnants offer_ids) ;;
  chunks <- divide stocks 100 ;;
  _ <- for_each update_stocks chunks ;;
  let not_empty := filter (fun s => negb (stock s =? 0)) stocks in
  Ok (not_empty, stocks).

(** The [try] block of [main]: the stock and price lists it builds and
    pushes; [watch_remnants] is what [download_stock] returned.  Both calls
    are given the same [offer_ids] list, so [create_prices] sees it as
    [create_stocks] left it. *)
Definition main_try (net : Network)
    (update_stocks : list Stock -> result unit)
    (update_price : list Price -> result unit) (watch_remnants : list Watch)
    : result (list Stock * list Price) :=
  offer_ids <- get_offer_ids net ;;
  let (created, offer_ids) := create_stocks watch_remnants offer_ids in
  stocks <- created ;;
  stock_chunks <- divide stocks 100 ;;
  _ <- for_each update_stocks stock_chunks ;;
  prices <- create_prices watch_remnants offer_ids ;;
  price_chunks <- divide prices 900 ;;
  _ <- for_each update_price price_chunks ;;
  Ok (stocks, prices).

(** The body of the coroutine [upload_prices].  [update_price] is the
    marketplace's answer to one pushed chunk. *)
Definition upload_prices (net : Network)
    (update_price : list Price -> result unit) (watch_remnants : list Watch)
    : result (list Price) :=
  offer_ids <- get_offer_ids net ;;
  prices <- create_prices watch_remnants offer_ids ;;
  chunks <- divide prices 1000 ;;
  _ <- for_each update_price chunks ;;
  Ok prices.

End Seller.

(** ** market.py: Yandex Market *)

Module Market.

Record Offer : Type := mkOffer {
  shopSku : string
}.

Record Entry : Type := mkEntry {
  offer : Offer
}.

Record Paging : Type := mkPaging {
  nextPageToken : option string  (* [None]: the key is absent *)
}.

Record Page : Type := mkPage {
  offerMappingEntries : list Entry;
  paging : Paging
}.

Definition Network : Type := list (result Page).

(** [not page] for a token that is [None] or a string. *)
Definition not_token (page : option string) : bool :=
  match page with
  | None => true
  | Some token => String.eqb token ""
  end.

Fixpoint fetch_pages (net : Network) (page : option string)
    (product_list : list Entry) : result (list Entry) :=
  match net with
  | [] => Raise ConnectionError
  | Raise e :: _ => Raise e
  | Ok some_prod :: net' =>
      let product_list := product_list ++ offerMappingEntries some_prod in
      let page := nextPageToken (paging some_prod) in
      if not_token page then Ok product_list
      else fetch_pages net' page product_list
  end.

Definition get_offer_ids (net : Network) : result (list string) :=
  product_list <- fetch_pages net (Some "") [] ;;
  Ok (map (fun product => shopSku (offer product)) product_list).

Record Item : Type := mkItem {
  count : Z;
  item_type : string;  (* "type" *)
  updatedAt : string
}.

Record Stock : Type := mkStock {
  sku : string;
  warehouseId : string;
  items : list Item
}.

Definition stock_record (warehouse_id date : string) (offer_id : string)
    (stock : Z) : Stock :=
  {| sku := offer_id;
     warehouseId := warehouse_id;
     items := [ {| count := stock; item_type := "FIT"; updatedAt := date |} ] |}.

(** [create_stocks]; [date] is the clock reading taken at the start of the
    call. *)
Definition create_stocks (date : string) (watch_remnants : list Watch)
    (offer_ids : list string) (warehouse_id : string)
    : result (list Stock) * list string :=
  create_stocks_with (stock_record warehouse_id date) watch_remnants offer_ids.

Record PriceValue : Type := mkPriceValue {
  value : Z;
  currencyId : string
}.

Record Price : Type := mkPrice {
  id : string;
  price : PriceValue
}.

Definition price_record (watch : Watch) : result Price :=
  v <- int (price_conversion (price_text watch)) ;;
  Ok {| id := code watch;
        price := {| value := v; currencyId := "RUR" |} |}.

Definition create_prices (watch_remnants : list Watch) (offer_ids : list string)
    : result (list Price) :=
  create_prices_with price_record watch_remnants offer_ids.

(** The count a stock dictionary holds: that of its first item. *)
Definition first_count (stock : Stock) : Z :=
  match items stock with
  | item :: _ => count item
  | [] => 0
  end.

(** The test of [upload_stocks]'s filter:
    [stock.get("items")[0].get("count") != 0]. *)
Definition count_not_zero (stock : Stock) : result bool :=
  match items stock with
  | [] => Raise IndexError
  | item :: _ => Ok (negb (count item =? 0))
  end.

Definition upload_stocks (date : string) (net : Network)
    (update_stocks : list Stock -> result unit) (watch_remnants : list Watch)
    (warehouse_id : string) : result (list Stock * list Stock) :=
  offer_ids <- get_offer_ids net ;;
  stocks <- fst (create_stocks date watch_remnants offer_ids warehouse_id) ;;
  chunks <- divide stocks 2000 ;;
  _ <- for_each update_stocks chunks ;;
  not_empty <- filter_list count_not_zero stocks ;;
  Ok (not_empty, stocks).

(** The body of the coroutine [upload_prices]. *)
Definition upload_prices (net : Network)
    (update_price : list Price -> result unit) (watch_remnants : list Watch)
    : result (list Price) :=
  offer_ids <- get_offer_ids net ;;
  prices <- create_prices watch_remnants offer_ids ;;
  chunks <- divide prices 500 ;;
  _ <- for_each update_price chunks ;;
  Ok prices.

(** The [try] block of [main]: the FBS pass, then the DBS pass, each with the
    answers its campaign gets, its clock reading and its warehouse; the value
    is the two stock lists built and pushed.  [main] calls [upload_prices]
    without awaiting it: the call makes a coroutine object and runs nothing
    of its body, so no step stands for it here. *)
Definition main_try (date_fbs date_dbs : string) (net_fbs net_dbs : Network)
    (update_stocks_fbs update_stocks_dbs : list Stock -> result unit)
    (watch_remnants : list Watch) (warehouse_fbs_id warehouse_dbs_id : string)
    : result (list Stock * list Stock) :=
  offer_ids <- get_offer_ids net_fbs ;;
  stocks_fbs <-
    fst (create_stocks date_fbs watch_remnants offer_ids warehouse_fbs_id) ;;
  chunks <- divide stocks_fbs 2000 ;;
  _ <- for_each update_stocks_fbs chunks ;;
  offer_ids <- get_offer_ids net_dbs ;;
  stocks_dbs <-
    fst (create_stocks date_dbs watch_remnants offer_ids warehouse_dbs_id) ;;
  chunks <- divide stocks_dbs 2000 ;;
  _ <- for_each update_stocks_dbs chunks ;;
  Ok (stocks_fbs, stocks_dbs).

End Market.

(** ** The number a digit string denotes *)

(** The value of a string of decimal digits read as an unsigned base-10
    integer, most significant digit first. *)
Definition decimal_value (digits : list ascii) : Z :=
  fold_left (fun acc c => 10 * acc + digit_value c) digits 0.

(** The characters of [price] before its first ["."], with every character
    that is not a digit deleted. *)
Definition price_digits (price : string) : list ascii :=
  filter is_digit (nth 0 (split "." (list_ascii_of_string price)) []).

(** ** Sample inputs *)

(** Two Ozon pages of a catalogue of three products; the second page lists
    the offer id ["A"] again. *)
Definition ozon_pages : list Seller.Page :=
  [ Seller.mkPage [Seller.mkProduct 1 "A"; Seller.mkProduct 2 "B"] 3 "2";
    Seller.mkPage [Seller.mkProduct 3 "A"] 3 "" ].

(** Two Yandex Market pages; the second has no next-page token and lists the
    offer id ["A"] again. *)
Definition market_pages : list Market.Page :=
  [ Market.mkPage [Market.mkEntry (Market.mkOffer "A");
                   Market.mkEntry (Market.mkOffer "B")]
      (Market.mkPaging (Some "t1"));
    Market.mkPage [Market.mkEntry (Market.mkOffer "A")]
      (Market.mkPaging None) ].

(** The feed and the offer ids of the end-to-end scenario. *)
Definition scenario_feed : list Watch :=
  [ mkWatch "A" ">10" "100.00 р."; mkWatch "B" "1" "50.00 р." ].

Definition scenario_offer_ids : list string := ["A"; "B"; "C"].

(** A feed in which the code ["A"] comes twice. *)
Definition duplicate_feed : list Watch :=
  [ mkWatch "A" ">10" "100.00 р."; mkWatch "A" "7" "120.00 р.";
    mkWatch "B" "1" "50.00 р." ].

(** * Properties *)

(** ** The conversions on sample texts *)

Example int_7 : int "7" = Ok 7.
Proof. reflexivity. Qed.

Example int_abc : int "abc" = Raise ValueError.
Proof. reflexivity. Qed.

Example int_neg : int " -12_0 " = Ok (-120).
Proof. reflexivity. Qed.

Example int_empty : int "" = Raise ValueError.
Proof. reflexivity. Qed.

(** [int] reads decimal digits and whitespace outside ASCII: Arabic-Indic
    digits, a no-break space (bytes 194, 160) before the number. *)
Example int_arabic_indic : int "٣٤" = Ok 34.
Proof. reflexivity. Qed.

Example int_no_break_space :
  int (String (ascii_of_nat 194) (String (ascii_of_nat 160) "7")) = Ok 7.
Proof. reflexivity. Qed.

Example int_superscript : int "²" = Raise ValueError.
Proof. reflexivity. Qed.

(** [int] reads 4300 digits and refuses 4301. *)
Example int_longest :
  int (string_of_list_ascii (repeat "9"%char 4300)) = Ok (10 ^ 4300 - 1).
Proof. vm_compute. reflexivity. Qed.

Example int_too_long :
  int (string_of_list_ascii (repeat "9"%char 4301)) = Raise ValueError.
Proof. vm_compute. reflexivity. Qed.

Example split_dots :
  map string_of_list_ascii (split "." (list_ascii_of_string "a.b.")) = ["a"; "b"; ""].
Proof. reflexivity. Qed.


(** ** Membership and removal *)

Lemma contains_In (x : string) (lst : list string) :
  contains x lst = true <-> In x lst.
Proof.
  induction lst as [|y rest IH]; simpl.
  - split; [discriminate | tauto].
  - destruct (String.eqb_spec y x) as [->|Hne].
    + tauto.
    + rewrite IH. split; [tauto | intros [H|H]; [contradiction | exact H]].
Qed.

Lemma contains_not_In (x : string) (lst : list string) :
  contains x lst = false <-> ~ In x lst.
Proof.
  rewrite <- contains_In. destruct (contains x lst); split; congruence.
Qed.

Lemma remove_Permutation (x : string) (lst : list string) :
  In x lst -> Permutation lst (x :: remove x lst).
Proof.
  induction lst as [|y rest IH]; simpl; [tauto|].
  intros Hin. destruct (String.eqb_spec y x) as [->|Hne].
  - reflexivity.
  - destruct Hin as [Heq|Hin]; [contradiction|].
    rewrite (IH Hin) at 1. apply perm_swap.
Qed.

Lemma remove_incl (x y : string) (lst : list string) :
  In y (remove x lst) -> In y lst.
Proof.
  induction lst as [|z rest IH]; simpl; [tauto|].
  destruct (String.eqb_spec z x); simpl; intuition.
Qed.

Lemma remove_other (x y : string) (lst : list string) :
  y <> x -> In y lst -> In y (remove x lst).
Proof.
  intros Hne. induction lst as [|z rest IH]; simpl; [tauto|].
  destruct (String.eqb_spec z x) as [->|Hzx]; simpl.
  - intros [H|H]; [congruence | exact H].
  - intuition.
Qed.

Lemma remove_NoDup (x : string) (lst : list string) :
  NoDup lst -> NoDup (remove x lst) /\ ~ In x (remove x lst).
Proof.
  induction 1 as [|y rest Hy Hnd IH]; simpl.
  - split; [constructor | tauto].
  - destruct (String.eqb_spec y x) as [->|Hne].
    + split; assumption.
    + destruct IH as [IH1 IH2]. split.
      * constructor; [|exact IH1]. intros H. apply Hy. eapply remove_incl, H.
      * simpl. intros [H|H]; [contradiction | exact (IH2 H)].
Qed.

(** ** The loops of [create_stocks] *)

Section CreateStocksFacts.

Variable Stock : Type.
Variable record : string -> Z -> Stock.

(** The offer id and the count a stock dictionary holds. *)
Variable id_of : Stock -> string.
Variable count_of : Stock -> Z.
Hypothesis id_of_record : forall offer_id n, id_of (record offer_id n) = offer_id.
Hypothesis count_of_record : forall offer_id n, count_of (record offer_id n) = n.

Lemma match_rows_acc (watch_remnants : list Watch) :
  forall offer_ids stocks,
    match_rows record watch_remnants offer_ids stocks =
    (map_ok (app stocks) (fst (match_rows record watch_remnants offer_ids [])),
     snd (match_rows record watch_remnants offer_ids [])).
Proof.
  induction watch_remnants as [|watch rest IH]; intros offer_ids stocks; simpl.
  - now rewrite app_nil_r.
  - destruct (contains (code watch) offer_ids); [|apply IH].
    destruct (stock_count (quantity watch)) as [n|e]; [|reflexivity].
    rewrite (IH _ (stocks ++ _)), (IH _ [record (code watch) n]).
    simpl. f_equal.
    destruct (fst (match_rows record rest _ [])); simpl; [|reflexivity].
    now rewrite <- app_assoc.
Qed.

(** One turn of the first loop, with the records of the later turns put
    after the record of this one. *)
Lemma match_rows_cons (watch : Watch) (rest : list Watch)
    (offer_ids : list string) :
  match_rows record (watch :: rest) offer_ids [] =
  if contains (code watch) offer_ids then
    match stock_count (quantity watch) with
    | Raise e => (Raise e, offer_ids)
    | Ok n =>
        let later := match_rows record rest (remove (code watch) offer_ids) [] in
        (map_ok (cons (record (code watch) n)) (fst later), snd later)
    end
  else match_rows record rest offer_ids [].
Proof.
  simpl. destruct (contains (code watch) offer_ids); [|reflexivity].
  destruct (stock_count (quantity watch)) as [n|e]; [|reflexivity].
  now rewrite match_rows_acc.
Qed.

(** What the first loop has done when it ends without raising: [stocks]
    holds one record per matched row, and [remaining] is the caller's list
    without the matched ids. *)
Lemma match_rows_ok (watch_remnants : list Watch) :
  forall offer_ids stocks remaining,
    match_rows record watch_remnants offer_ids [] = (Ok stocks, remaining) ->
    Permutation (map id_of stocks ++ remaining) offer_ids /\
    Forall (fun s => exists watch,
              In watch watch_remnants /\
              stock_count (quantity watch) = Ok (count_of s) /\
              s = record (code watch) (count_of s)) stocks /\
    (forall offer_id, In offer_id offer_ids ->
       (forall watch, In watch watch_remnants -> code watch <> offer_id) ->
       In offer_id remaining /\ ~ In offer_id (map id_of stocks)) /\
    (NoDup offer_ids ->
       forall watch, In watch watch_remnants -> ~ In (code watch) remaining).
Proof.
  induction watch_remnants as [|watch rest IH]; intros offer_ids stocks remaining H.
  - simpl in H. injection H as <- <-. simpl. repeat split; auto.
  - rewrite match_rows_cons in H.
    destruct (contains (code watch) offer_ids) eqn:Hin.
    + apply contains_In in Hin.
      destruct (stock_count (quantity watch)) as [n|e] eqn:Hn; [|discriminate].
      destruct (match_rows record rest (remove (code watch) offer_ids) [])
        as [[later|e] remaining'] eqn:Hlater; simpl in H; [|discriminate].
      injection H as <- <-.
      destruct (IH _ _ _ Hlater) as (Hperm & Hrows & Habsent & Hdistinct).
      assert (Hsub : forall x, In x remaining' -> In x (remove (code watch) offer_ids)).
      { intros x Hx. eapply Permutation_in; [exact Hperm|].
        apply in_or_app. now right. }
      split; [|split; [|split]].
      * simpl. rewrite id_of_record.
        rewrite (remove_Permutation _ _ Hin). now apply perm_skip.
      * constructor.
        -- exists watch. rewrite count_of_record. simpl. auto.
        -- eapply Forall_impl; [|exact Hrows].
           intros s (w & Hw & Hc & Hs). exists w. simpl. auto.
      * intros offer_id Hid Hno.
        assert (Hne : offer_id <> code watch).
        { intros ->. apply (Hno watch); simpl; auto. }
        destruct (Habsent offer_id) as [H1 H2].
        -- now apply remove_other.
        -- intros w Hw. apply Hno. now right.
        -- split; [exact H1|]. simpl. rewrite id_of_record.
           intros [Heq|H3]; [congruence | contradiction].
      * intros Hnd w [<-|Hw].
        -- intros Hx. apply (proj2 (remove_NoDup (code watch) _ Hnd)). auto.
        -- apply Hdistinct; [|exact Hw]. apply remove_NoDup, Hnd.
    + apply contains_not_In in Hin.
      destruct (IH _ _ _ H) as (Hperm & Hrows & Habsent & Hdistinct).
      split; [exact Hperm|split; [|split]].
      * eapply Forall_impl; [|exact Hrows].
        intros s (w & Hw & Hc & Hs). exists w. simpl. auto.
      * intros offer_id Hid Hno. apply Habsent; [exact Hid|].
        intros w Hw. apply Hno. now right.
      * intros Hnd w [<-|Hw]; [|now apply Hdistinct].
        intros Hx. apply Hin. eapply Permutation_in; [exact Hperm|].
        apply in_or_app. now right.
Qed.

(** A call of [create_stocks] that returns has run both loops. *)
Lemma create_stocks_with_ok (watch_remnants : list Watch)
    (offer_ids : list string) (stocks : list Stock) (remaining : list string) :
  create_stocks_with record watch_remnants offer_ids = (Ok stocks, remaining) ->
  exists rows,
    match_rows record watch_remnants offer_ids [] = (Ok rows, remaining) /\
    stocks = rows ++ map (fun offer_id => record offer_id 0) remaining.
Proof.
  unfold create_stocks_with, zero_fill.
  destruct (match_rows record watch_remnants offer_ids []) as [[rows|e] rem].
  - intros H. injection H as <- <-. now exists rows.
  - discriminate.
Qed.

Lemma map_id_of_zero (remaining : list string) :
  map id_of (map (fun offer_id => record offer_id 0) remaining) = remaining.
Proof.
  rewrite map_map. erewrite map_ext; [apply map_id|].
  intros a. apply id_of_record.
Qed.

(** The offer ids of the records returned are the caller's offer ids, each as
    many times as it is in the caller's list. *)
Lemma create_stocks_with_Permutation (watch_remnants : list Watch)
    (offer_ids : list string) (stocks : list Stock) (remaining : list string) :
  create_stocks_with record watch_remnants offer_ids = (Ok stocks, remaining) ->
  Permutation (map id_of stocks) offer_ids.
Proof.
  intros H. apply create_stocks_with_ok in H as (rows & Hrows & ->).
  rewrite map_app, map_id_of_zero.
  now apply match_rows_ok in Hrows.
Qed.

(** Every record returned has count 0, or the count of a feed row with that
    code. *)
Lemma create_stocks_with_counts (watch_remnants : list Watch)
    (offer_ids : list string) (stocks : list Stock) (remaining : list string) :
  create_stocks_with record watch_remnants offer_ids = (Ok stocks, remaining) ->
  Forall (fun s =>
            count_of s = 0 \/
            exists watch, In watch watch_remnants /\
                          code watch = id_of s /\
                          stock_count (quantity watch) = Ok (count_of s)) stocks.
Proof.
  intros H. apply create_stocks_with_ok in H as (rows & Hrows & ->).
  apply match_rows_ok in Hrows as (_ & Hrows & _).
  apply Forall_app. split.
  - eapply Forall_impl; [|exact Hrows].
    intros s (w & Hw & Hc & Hs). right. exists w. repeat split; auto.
    rewrite Hs. now rewrite id_of_record.
  - apply Forall_forall. intros s Hs. apply in_map_iff in Hs as (x & <- & _).
    left. apply count_of_record.
Qed.

(** Every record returned is the dictionary [create_stocks] builds. *)
Lemma create_stocks_with_shape (watch_remnants : list Watch)
    (offer_ids : list string) (stocks : list Stock) (remaining : list string) :
  create_stocks_with record watch_remnants offer_ids = (Ok stocks, remaining) ->
  Forall (fun s => s = record (id_of s) (count_of s)) stocks.
Proof.
  intros H. apply create_stocks_with_ok in H as (rows & Hrows & ->).
  apply match_rows_ok in Hrows as (_ & Hrows & _).
  apply Forall_app. split.
  - eapply Forall_impl; [|exact Hrows].
    intros s (w & _ & _ & Hs). rewrite Hs at 2. now rewrite id_of_record.
  - apply Forall_forall. intros s Hs. apply in_map_iff in Hs as (x & <- & _).
    now rewrite id_of_record, count_of_record.
Qed.

(** An offer id that no feed row carries is zero-filled: it is left in the
    caller's list, and its records have count 0. *)
Lemma create_stocks_with_zero_fill (watch_remnants : list Watch)
    (offer_ids : list string) (stocks : list Stock) (remaining : list string)
    (offer_id : string) :
  create_stocks_with record watch_remnants offer_ids = (Ok stocks, remaining) ->
  In offer_id offer_ids ->
  (forall watch, In watch watch_remnants -> code watch <> offer_id) ->
  In (record offer_id 0) stocks /\
  (forall s, In s stocks -> id_of s = offer_id -> s = record offer_id 0).
Proof.
  intros H Hid Hno. apply create_stocks_with_ok in H as (rows & Hrows & ->).
  apply match_rows_ok in Hrows as (_ & _ & Habsent & _).
  destruct (Habsent offer_id Hid Hno) as [Hrem Hnot]. split.
  - apply in_or_app. right. apply in_map_iff. now exists offer_id.
  - intros s Hs Hsid. apply in_app_or in Hs as [Hs|Hs].
    + exfalso. apply Hnot. rewrite <- Hsid. now apply in_map.
    + apply in_map_iff in Hs as (x & <- & _).
      rewrite id_of_record in Hsid. now subst.
Qed.

(** With distinct offer ids, no feed row's code is left in the caller's list
    after the call. *)
Lemma create_stocks_with_leaves_no_code (watch_remnants : list Watch)
    (offer_ids : list string) (stocks : list Stock) (remaining : list string) :
  create_stocks_with record watch_remnants offer_ids = (Ok stocks, remaining) ->
  NoDup offer_ids ->
  forall watch, In watch watch_remnants -> contains (code watch) remaining = false.
Proof.
  intros H Hnd w Hw. apply create_stocks_with_ok in H as (rows & Hrows & ->).
  apply match_rows_ok in Hrows as (_ & _ & _ & Hdistinct).
  apply contains_not_In. now apply Hdistinct.
Qed.

(** The call raises when the first feed row with some code fails to give a
    count and the code is one of the caller's offer ids. *)
Lemma create_stocks_with_raises (before after : list Watch) (watch : Watch)
    (e : exn) :
  stock_count (quantity watch) = Raise e ->
  (forall w, In w before -> code w <> code watch) ->
  forall offer_ids,
    In (code watch) offer_ids ->
    exists e', fst (create_stocks_with record (before ++ watch :: after) offer_ids)
               = Raise e'.
Proof.
  intros Hbad. unfold create_stocks_with.
  induction before as [|w before IH]; intros Hfirst offer_ids Hin.
  - simpl app. rewrite match_rows_cons.
    apply contains_In in Hin. rewrite Hin, Hbad. now exists e.
  - simpl app. rewrite match_rows_cons.
    assert (Hne : code watch <> code w).
    { intros Heq. apply (Hfirst w); simpl; auto. }
    assert (Hfirst' : forall w', In w' before -> code w' <> code watch).
    { intros w' Hw'. apply Hfirst. now right. }
    destruct (contains (code w) offer_ids).
    + destruct (stock_count (quantity w)) as [n|e0]; [|now exists e0].
      destruct (IH Hfirst' (remove (code w) offer_ids)) as [e' He'].
      { now apply remove_other. }
      destruct (match_rows record (before ++ watch :: after) _ [])
        as [[rows|e1] rem]; simpl in *; [discriminate|]. now exists e1.
    + now apply IH.
Qed.

(** The call returns when every feed row whose code is one of the caller's
    offer ids gives a count. *)
Lemma create_stocks_with_returns (watch_remnants : list Watch) :
  forall offer_ids,
    (forall watch, In watch watch_remnants -> In (code watch) offer_ids ->
                   exists n, stock_count (quantity watch) = Ok n) ->
    exists stocks remaining,
      create_stocks_with record watch_remnants offer_ids = (Ok stocks, remaining).
Proof.
  unfold create_stocks_with.
  assert (H : forall offer_ids,
    (forall watch, In watch watch_remnants -> In (code watch) offer_ids ->
                   exists n, stock_count (quantity watch) = Ok n) ->
    exists rows remaining,
      match_rows record watch_remnants offer_ids [] = (Ok rows, remaining)).
  { induction watch_remnants as [|w rest IH]; intros offer_ids Hall.
    - now exists [], offer_ids.
    - rewrite match_rows_cons.
      destruct (contains (code w) offer_ids) eqn:Hin.
      + apply contains_In in Hin.
        destruct (Hall w (or_introl eq_refl) Hin) as [n ->].
        destruct (IH (remove (code w) offer_ids)) as (rows & rem & ->).
        { intros w' Hw' Hin'. apply Hall; [now right|].
          eapply remove_incl, Hin'. }
        simpl. now exists (record (code w) n :: rows), rem.
      + apply IH. intros w' Hw'. apply Hall. now right. }
  intros offer_ids Hall. destruct (H offer_ids Hall) as (rows & rem & ->).
  now exists (zero_fill record rem rows), rem.
Qed.

End CreateStocksFacts.

(** ** The loop of [create_prices] *)

Section CreatePricesFacts.

Variable Price : Type.
Variable record : Watch -> result Price.

Lemma price_rows_acc (watch_remnants : list Watch) (offer_ids : list string) :
  forall prices,
    price_rows record watch_remnants offer_ids prices =
    map_ok (app prices) (price_rows record watch_remnants offer_ids []).
Proof.
  induction watch_remnants as [|watch rest IH]; intros prices; simpl.
  - now rewrite app_nil_r.
  - destruct (contains (code watch) offer_ids); [|apply IH].
    destruct (record watch) as [p|e]; simpl; [|reflexivity].
    rewrite (IH (prices ++ [p])), (IH [p]).
    destruct (price_rows record rest offer_ids []); simpl; [|reflexivity].
    now rewrite <- app_assoc.
Qed.

Lemma create_prices_with_cons (watch : Watch) (rest : list Watch)
    (offer_ids : list string) :
  create_prices_with record (watch :: rest) offer_ids =
  if contains (code watch) offer_ids then
    p <- record watch ;;
    map_ok (cons p) (create_prices_with record rest offer_ids)
  else create_prices_with record rest offer_ids.
Proof.
  unfold create_prices_with. simpl.
  destruct (contains (code watch) offer_ids); [|reflexivity].
  destruct (record watch) as [p|e]; simpl; [|reflexivity].
  now rewrite price_rows_acc.
Qed.

(** The records returned are those of the feed rows whose code is in
    [offer_ids], in feed order. *)
Lemma create_prices_with_ok (watch_remnants : list Watch)
    (offer_ids : list string) :
  forall prices,
    create_prices_with record watch_remnants offer_ids = Ok prices ->
    Forall2 (fun watch p => record watch = Ok p)
      (filter (fun watch => contains (code watch) offer_ids) watch_remnants)
      prices.
Proof.
  induction watch_remnants as [|watch rest IH]; intros prices H.
  - injection H as <-. constructor.
  - rewrite create_prices_with_cons in H. simpl.
    destruct (contains (code watch) offer_ids); [|now apply IH].
    destruct (record watch) as [p|e] eqn:Hp; simpl in H; [|discriminate].
    destruct (create_prices_with record rest offer_ids) as [ps|e];
      simpl in H; [|discriminate].
    injection H as <-. constructor; [exact Hp | now apply IH].
Qed.

Lemma create_prices_with_In (watch_remnants : list Watch)
    (offer_ids : list string) (prices : list Price) (p : Price) :
  create_prices_with record watch_remnants offer_ids = Ok prices ->
  In p prices ->
  exists watch, In watch watch_remnants /\ In (code watch) offer_ids /\
                record watch = Ok p.
Proof.
  revert prices. induction watch_remnants as [|w rest IH]; intros prices H Hp.
  - injection H as <-. contradiction.
  - rewrite create_prices_with_cons in H.
    assert (Hrest : forall ps, create_prices_with record rest offer_ids = Ok ps ->
                    In p ps ->
                    exists watch, In watch (w :: rest) /\
                                  In (code watch) offer_ids /\ record watch = Ok p).
    { intros ps Hps Hin. destruct (IH ps Hps Hin) as (w' & Hw' & Hrest).
      exists w'. split; [now right | exact Hrest]. }
    destruct (contains (code w) offer_ids) eqn:Hin; [|now apply (Hrest prices)].
    apply contains_In in Hin.
    destruct (record w) as [q|e] eqn:Hq; simpl in H; [|discriminate].
    destruct (create_prices_with record rest offer_ids) as [ps|e];
      simpl in H; [|discriminate].
    injection H as <-. destruct Hp as [->|Hp]; [|now apply (Hrest ps)].
    exists w. split; [now left | auto].
Qed.

(** The call raises when a feed row whose code is in [offer_ids] gives no
    record. *)
Lemma create_prices_with_raises (watch_remnants : list Watch)
    (offer_ids : list string) (watch : Watch) (e : exn) :
  In watch watch_remnants -> In (code watch) offer_ids ->
  record watch = Raise e ->
  exists e', create_prices_with record watch_remnants offer_ids = Raise e'.
Proof.
  intros Hw Hin Hbad. apply contains_In in Hin.
  induction watch_remnants as [|w rest IH]; [contradiction|].
  rewrite create_prices_with_cons.
  destruct Hw as [->|Hw].
  - rewrite Hin, Hbad. now exists e.
  - destruct (IH Hw) as [e' He'].
    destruct (contains (code w) offer_ids); [|now exists e'].
    destruct (record w) as [q|e0]; simpl; [|now exists e0].
    rewrite He'. now exists e'.
Qed.

(** No record is built when no feed row's code is in [offer_ids]. *)
Lemma create_prices_with_none (watch_remnants : list Watch)
    (offer_ids : list string) :
  (forall watch, In watch watch_remnants ->
                 contains (code watch) offer_ids = false) ->
  create_prices_with record watch_remnants offer_ids = Ok [].
Proof.
  induction watch_remnants as [|w rest IH]; intros Hno; [reflexivity|].
  rewrite create_prices_with_cons, (Hno w (or_introl eq_refl)).
  apply IH. intros w' Hw'. apply Hno. now right.
Qed.

End CreatePricesFacts.

(** ** Reconciliation: completeness and zero-fill *)

Lemma NoDup_scenario_offer_ids : NoDup scenario_offer_ids.
Proof.
  unfold scenario_offer_ids.
  repeat constructor; simpl; intuition discriminate.
Qed.

(** C1.  For pairwise-distinct offer ids, [create_stocks] returns whenever
    every feed row carrying a known code gives a count, and whenever it
    returns there are as many stock records as offer ids, their offer ids are
    the known offer ids in some order, and no offer id is in two records;
    nothing is asked of the feed, whose codes may repeat.  This holds for the
    records of both marketplaces. *)
Theorem create_stocks_one_record_per_offer_id
    (watch_remnants : list Watch) (offer_ids : list string) :
  NoDup offer_ids ->
  ((forall watch, In watch watch_remnants -> In (code watch) offer_ids ->
                  exists n, stock_count (quantity watch) = Ok n) ->
   (exists stocks remaining,
      Seller.create_stocks watch_remnants offer_ids = (Ok stocks, remaining)) /\
   (forall date warehouse_id, exists stocks remaining,
      Market.create_stocks date watch_remnants offer_ids warehouse_id
      = (Ok stocks, remaining))) /\
  (forall stocks remaining,
     Seller.create_stocks watch_remnants offer_ids = (Ok stocks, remaining) ->
     length stocks = length offer_ids /\
     Permutation (map Seller.offer_id stocks) offer_ids /\
     NoDup (map Seller.offer_id stocks)) /\
  (forall date warehouse_id stocks remaining,
     Market.create_stocks date watch_remnants offer_ids warehouse_id
     = (Ok stocks, remaining) ->
     length stocks = length offer_ids /\
     Permutation (map Market.sku stocks) offer_ids /\
     NoDup (map Market.sku stocks)).
Proof.
  intros Hnd. split; [|split].
  - intros Hall. split; [|intros date warehouse_id];
      now apply create_stocks_with_returns.
  - intros stocks remaining H.
    apply (create_stocks_with_Permutation _ Seller.mkStock Seller.offer_id Seller.stock
             (fun _ _ => eq_refl) (fun _ _ => eq_refl)) in H.
    split; [|split]; [|exact H|].
    + rewrite <- (length_map Seller.offer_id). now apply Permutation_length.
    + eapply Permutation_NoDup; [symmetry; exact H | exact Hnd].
  - intros date warehouse_id stocks remaining H.
    apply (create_stocks_with_Permutation _ (Market.stock_record warehouse_id date)
             Market.sku Market.first_count
             (fun _ _ => eq_refl) (fun _ _ => eq_refl)) in H.
    split; [|split]; [|exact H|].
    + rewrite <- (length_map Market.sku). now apply Permutation_length.
    + eapply Permutation_NoDup; [symmetry; exact H | exact Hnd].
Qed.

Lemma create_stocks_one_record_per_offer_id_witness :
  NoDup scenario_offer_ids /\
  exists stocks remaining,
    Seller.create_stocks duplicate_feed scenario_offer_ids
    = (Ok stocks, remaining) /\
    length stocks = length scenario_offer_ids /\
    Permutation (map Seller.offer_id stocks) scenario_offer_ids /\
    NoDup (map Seller.offer_id stocks).
Proof.
  split; [exact NoDup_scenario_offer_ids|].
  destruct (create_stocks_one_record_per_offer_id duplicate_feed
              scenario_offer_ids NoDup_scenario_offer_ids) as (_ & H & _).
  eexists _, _. split; [reflexivity|]. eapply H. reflexivity.
Defined.

(** The feed with a repeated code gives one record per offer id. *)
Example create_stocks_duplicate_feed :
  Seller.create_stocks duplicate_feed scenario_offer_ids =
  (Ok [Seller.mkStock "A" 100; Seller.mkStock "B" 0; Seller.mkStock "C" 0],
   ["C"]).
Proof. reflexivity. Qed.

(** C4.  An offer id of the caller's list that is the code of no feed row
    gets a stock record with count 0, every stock record for it has count 0,
    and no price record carries it, whichever offer-id list [create_prices]
    is given.  This holds for both marketplaces. *)
Theorem absent_offer_is_zero_filled (watch_remnants : list Watch)
    (offer_ids : list string) (offer_id : string) :
  In offer_id offer_ids ->
  (forall watch, In watch watch_remnants -> code watch <> offer_id) ->
  (forall stocks remaining,
     Seller.create_stocks watch_remnants offer_ids = (Ok stocks, remaining) ->
     In (Seller.mkStock offer_id 0) stocks /\
     (forall s, In s stocks -> Seller.offer_id s = offer_id ->
                Seller.stock s = 0)) /\
  (forall date warehouse_id stocks remaining,
     Market.create_stocks date watch_remnants offer_ids warehouse_id
     = (Ok stocks, remaining) ->
     In (Market.stock_record warehouse_id date offer_id 0) stocks /\
     (forall s, In s stocks -> Market.sku s = offer_id ->
                Market.first_count s = 0)) /\
  (forall ids prices,
     Seller.create_prices watch_remnants ids = Ok prices ->
     ~ In offer_id (map Seller.price_offer_id prices)) /\
  (forall ids prices,
     Market.create_prices watch_remnants ids = Ok prices ->
     ~ In offer_id (map Market.id prices)).
Proof.
  intros Hid Hno. split; [|split; [|split]].
  - intros stocks remaining H.
    destruct (create_stocks_with_zero_fill _ Seller.mkStock Seller.offer_id Seller.stock
                (fun _ _ => eq_refl) (fun _ _ => eq_refl)
                _ _ _ _ _ H Hid Hno) as [H0 Hall].
    split; [exact H0|]. intros s Hs Hsid. now rewrite (Hall s Hs Hsid).
  - intros date warehouse_id stocks remaining H.
    destruct (create_stocks_with_zero_fill _
                (Market.stock_record warehouse_id date) Market.sku Market.first_count
                (fun _ _ => eq_refl) (fun _ _ => eq_refl)
                _ _ _ _ _ H Hid Hno) as [H0 Hall].
    split; [exact H0|]. intros s Hs Hsid. now rewrite (Hall s Hs Hsid).
  - intros ids prices H Hin. apply in_map_iff in Hin as (p & Hp & Hin).
    destruct (create_prices_with_In _ _ _ _ _ p H Hin) as (w & Hw & _ & Hrec).
    injection Hrec as <-. simpl in Hp. exact (Hno w Hw Hp).
  - intros ids prices H Hin. apply in_map_iff in Hin as (p & Hp & Hin).
    destruct (create_prices_with_In _ _ _ _ _ p H Hin) as (w & Hw & _ & Hrec).
    unfold Market.price_record in Hrec.
    destruct (int (price_conversion (price_text w))); simpl in Hrec;
      [|discriminate].
    injection Hrec as <-. simpl in Hp. exact (Hno w Hw Hp).
Qed.

Lemma absent_offer_is_zero_filled_witness :
  In "C" scenario_offer_ids /\
  exists stocks remaining prices,
    Seller.create_stocks scenario_feed scenario_offer_ids
    = (Ok stocks, remaining) /\
    Market.create_prices scenario_feed scenario_offer_ids = Ok prices /\
    In (Seller.mkStock "C" 0) stocks /\
    ~ In "C" (map Market.id prices).
Proof.
  assert (Hin : In "C" scenario_offer_ids) by (simpl; auto).
  assert (Hno : forall watch, In watch scenario_feed -> code watch <> "C").
  { intros w [<-|[<-|[]]]; discriminate. }
  split; [exact Hin|].
  destruct (absent_offer_is_zero_filled scenario_feed scenario_offer_ids "C"
              Hin Hno) as (Hstock & _ & _ & Hprice).
  eexists _, _, _. split; [reflexivity|]. split; [reflexivity|].
  split.
  - eapply (fun stocks remaining H => proj1 (Hstock stocks remaining H)).
    reflexivity.
  - eapply (Hprice scenario_offer_ids). reflexivity.
Defined.

(** The end-to-end scenario: stock records for A, B and C, price records for
    A and B. *)
Example scenario_stocks :
  fst (Seller.create_stocks scenario_feed scenario_offer_ids) =
  Ok [Seller.mkStock "A" 100; Seller.mkStock "B" 0; Seller.mkStock "C" 0].
Proof. reflexivity. Qed.

Example scenario_prices :
  Market.create_prices scenario_feed scenario_offer_ids =
  Ok [Market.mkPrice "A" (Market.mkPriceValue 100 "RUR");
      Market.mkPrice "B" (Market.mkPriceValue 50 "RUR")].
Proof. reflexivity. Qed.

(** ** Reading integers *)

Lemma is_digit_bounds (c : ascii) :
  is_digit c = true -> (48 <= nat_of_ascii c <= 57)%nat.
Proof.
  unfold is_digit. intros H. apply andb_true_iff in H as [H1 H2].
  apply Nat.leb_le in H1, H2. lia.
Qed.

Lemma is_digit_not_space (c : ascii) : is_digit c = true -> is_space c = false.
Proof.
  intros H. apply is_digit_bounds in H. unfold is_space.
  apply orb_false_iff. split.
  - apply andb_false_iff. right. apply Nat.leb_gt. lia.
  - apply Nat.eqb_neq. lia.
Qed.

Lemma digit_value_bounds (c : ascii) :
  is_digit c = true -> 0 <= digit_value c <= 9.
Proof. intros H. apply is_digit_bounds in H. unfold digit_value. lia. Qed.

Lemma lstrip_digits (l : list ascii) : Forall (fun c => is_digit c = true) l -> lstrip l = l.
Proof.
  destruct 1 as [|c l Hc _]; [reflexivity|].
  simpl. now rewrite (is_digit_not_space c Hc).
Qed.

Lemma strip_digits (l : list ascii) : Forall (fun c => is_digit c = true) l -> strip l = l.
Proof.
  intros H. unfold strip. rewrite (lstrip_digits l H).
  rewrite lstrip_digits; [apply rev_involutive|].
  now apply Forall_rev.
Qed.

Lemma int_digits_all (l : list ascii) :
  Forall (fun c => is_digit c = true) l ->
  forall acc prev,
    l <> [] \/ prev = true ->
    int_digits acc prev l
    = Some (fold_left (fun a c => 10 * a + digit_value c) l acc).
Proof.
  induction 1 as [|c l Hc _ IH]; intros acc prev Hne;
    cbn [int_digits fold_left].
  - destruct Hne as [Hne| ->]; [contradiction | reflexivity].
  - rewrite Hc. apply IH. now right.
Qed.

Lemma fold_digits_nonneg (l : list ascii) :
  Forall (fun c => is_digit c = true) l ->
  forall acc, 0 <= acc ->
    0 <= fold_left (fun a c => 10 * a + digit_value c) l acc.
Proof.
  induction 1 as [|c l Hc _ IH]; intros acc Hacc; cbn [fold_left];
    [exact Hacc|].
  apply IH. apply digit_value_bounds in Hc. lia.
Qed.

Lemma decimal_value_nonneg (l : list ascii) :
  Forall (fun c => is_digit c = true) l -> 0 <= decimal_value l.
Proof. intros H. apply fold_digits_nonneg; [exact H | lia]. Qed.

Lemma filter_digits (l : list ascii) :
  Forall (fun c => is_digit c = true) l -> filter is_digit l = l.
Proof.
  induction 1 as [|c l Hc _ IH]; simpl; [reflexivity|].
  now rewrite Hc, IH.
Qed.

Lemma ascii_text_digits (l : list ascii) :
  Forall (fun c => is_digit c = true) l -> ascii_text l = Some l.
Proof.
  unfold ascii_text. induction 1 as [|c l Hc _ IH]; [reflexivity|].
  assert (Hlow : (N_of_ascii c <? 128)%N = true).
  { destruct c as [[] [] [] [] [] [] [] []]; try reflexivity; discriminate Hc. }
  cbn [code_points]. cbv zeta. rewrite Hlow.
  destruct (code_points l) as [cps|]; [|discriminate IH].
  cbn [option_map read_all]. unfold read_as. rewrite Hlow, IH.
  now rewrite ascii_N_embedding.
Qed.

(** [int] on a string of digits: the number they denote, and [ValueError]
    when there is no digit or more digits than [int] reads. *)
Lemma int_of_digits (l : list ascii) :
  Forall (fun c => is_digit c = true) l ->
  int (string_of_list_ascii l)
  = match l with
    | [] => Raise ValueError
    | _ => if len l >? int_max_str_digits then Raise ValueError
           else Ok (decimal_value l)
    end.
Proof.
  intros H. unfold int.
  rewrite list_ascii_of_string_of_list_ascii, (ascii_text_digits l H).
  cbv zeta. rewrite (strip_digits l H).
  destruct l as [|c l]; [reflexivity|].
  assert (Hc : is_digit c = true) by now inversion H.
  assert (Hsign : match c :: l with
                  | "-"%char :: rest => (-1, rest)
                  | "+"%char :: rest => (1, rest)
                  | _ => (1, c :: l)
                  end = (1, c :: l)).
  { destruct c as [[] [] [] [] [] [] [] []]; try reflexivity; discriminate Hc. }
  rewrite Hsign. cbn [fst snd].
  rewrite (int_digits_all (c :: l) H 0 false) by (left; discriminate).
  rewrite (filter_digits (c :: l) H). fold (len (c :: l)).
  destruct (len (c :: l) >? int_max_str_digits); [reflexivity|].
  unfold decimal_value.
  now destruct (fold_left _ (c :: l) 0).
Qed.

Lemma price_digits_are_digits (price : string) :
  Forall (fun c => is_digit c = true) (price_digits price).
Proof.
  unfold price_digits. apply Forall_forall. intros c Hc.
  now apply filter_In in Hc.
Qed.

Lemma price_conversion_digits (price : string) :
  price_conversion price = string_of_list_ascii (price_digits price).
Proof. reflexivity. Qed.

(** The first piece of a split holds no separator and is the text before the
    first separator. *)
Lemma split_first_piece (sep : ascii) (l : list ascii) :
  let piece := nth 0 (split sep l) [] in
  ~ In sep piece /\ (l = piece \/ exists rest, l = piece ++ sep :: rest).
Proof.
  induction l as [|c l IH]; simpl.
  - split; [tauto | now left].
  - destruct (Ascii.eqb_spec c sep) as [->|Hne]; simpl.
    + split; [tauto|]. right. now exists l.
    + destruct IH as [Hno Hsplit].
      destruct (split sep l) as [|piece pieces]; simpl in *.
      * split; [intuition|]. destruct Hsplit as [->|[rest ->]]; [now left|].
        right. now exists rest.
      * split; [intuition|]. destruct Hsplit as [->|[rest ->]]; [now left|].
        right. now exists rest.
Qed.

(** ** The quantity rule *)

Lemma stock_count_other (descriptor : string) :
  descriptor <> ">10" -> descriptor <> "1" ->
  stock_count descriptor = int descriptor.
Proof.
  intros H10 H1. unfold stock_count.
  destruct (String.eqb_spec descriptor ">10"); [contradiction|].
  destruct (String.eqb_spec descriptor "1"); [contradiction|]. reflexivity.
Qed.

Lemma int_exn (s : string) (e : exn) : int s = Raise e -> e = ValueError.
Proof.
  unfold int. destruct (ascii_text _) as [text|].
  - cbv zeta. destruct (int_digits _ _ _) as [v|].
    + destruct (_ >? _); [|discriminate]. intros H. now injection H.
    + intros H. now injection H.
  - intros H. now injection H.
Qed.

Lemma stock_count_raises (descriptor : string) (e : exn) :
  stock_count descriptor = Raise e <->
  descriptor <> ">10" /\ descriptor <> "1" /\
  int descriptor = Raise ValueError /\ e = ValueError.
Proof.
  split.
  - intros H.
    assert (H10 : descriptor <> ">10") by (intros ->; discriminate H).
    assert (H1 : descriptor <> "1") by (intros ->; discriminate H).
    rewrite (stock_count_other _ H10 H1) in H.
    pose proof (int_exn _ _ H) as ->. auto.
  - intros (H10 & H1 & Hint & ->). now rewrite stock_count_other.
Qed.



(** ** The price rule *)

Example price_conversion_rub : price_conversion "5'990.00 руб." = "5990".
Proof. reflexivity. Qed.

Example price_conversion_decimal : price_conversion "12.50" = "12".
Proof. reflexivity. Qed.

(** [price_conversion] returns the empty string for a text without digits,
    and [seller.py] publishes it as the price: nothing fails. *)
Lemma price_conversion_na_returns :
  price_conversion "n/a" = "" /\
  Seller.create_prices [mkWatch "A" "5" "n/a"] ["A"]
  = Ok [Seller.mkPrice "UNKNOWN" "RUB" "A" "0" ""].
Proof. split; reflexivity. Qed.

Lemma market_price_record_digits (watch : Watch) :
  Market.price_record watch
  = match price_digits (price_text watch) with
    | [] => Raise ValueError
    | digits =>
        if len digits >? int_max_str_digits then Raise ValueError
        else Ok (Market.mkPrice (code watch)
                   (Market.mkPriceValue (decimal_value digits) "RUR"))
    end.
Proof.
  unfold Market.price_record. rewrite price_conversion_digits.
  rewrite (int_of_digits _ (price_digits_are_digits _)).
  destruct (price_digits (price_text watch)) as [|c digits]; [reflexivity|].
  now destruct (len (c :: digits) >? int_max_str_digits).
Qed.

(** C3, amended.  For every price text, [price_conversion] returns, as a
    string and without failing, the digits of the part of the text that
    comes before its first ["."]; [seller.py] publishes that string as the
    price; [market.py] reads it with [int], which gives the unsigned integer
    the digits denote and raises [ValueError] exactly when no digit is left
    or more digits are left than [int] reads ([int_max_str_digits]). *)
Theorem price_conversion_rule (watch : Watch) :
  (exists before,
     ~ In "."%char before /\
     (list_ascii_of_string (price_text watch) = before \/
      exists rest,
        list_ascii_of_string (price_text watch) = before ++ "."%char :: rest) /\
     price_digits (price_text watch) = filter is_digit before) /\
  price_conversion (price_text watch)
  = string_of_list_ascii (price_digits (price_text watch)) /\
  Seller.price_record watch
  = Ok (Seller.mkPrice "UNKNOWN" "RUB" (code watch) "0"
          (string_of_list_ascii (price_digits (price_text watch)))) /\
  Market.price_record watch
  = match price_digits (price_text watch) with
    | [] => Raise ValueError
    | digits =>
        if len digits >? int_max_str_digits then Raise ValueError
        else Ok (Market.mkPrice (code watch)
                   (Market.mkPriceValue (decimal_value digits) "RUR"))
    end /\
  0 <= decimal_value (price_digits (price_text watch)).
Proof.
  split; [|split; [|split; [|split]]].
  - exists (nth 0 (split "." (list_ascii_of_string (price_text watch))) []).
    destruct (split_first_piece "." (list_ascii_of_string (price_text watch)))
      as [Hno Hsplit].
    split; [exact Hno|]. split; [exact Hsplit | reflexivity].
  - reflexivity.
  - reflexivity.
  - apply market_price_record_digits.
  - apply decimal_value_nonneg, price_digits_are_digits.
Qed.

Example market_price_rub :
  Market.price_record (mkWatch "A" "5" "5'990.00 руб.")
  = Ok (Market.mkPrice "A" (Market.mkPriceValue 5990 "RUR")).
Proof. reflexivity. Qed.

Example market_price_decimal :
  Market.price_record (mkWatch "A" "5" "12.50")
  = Ok (Market.mkPrice "A" (Market.mkPriceValue 12 "RUR")).
Proof. reflexivity. Qed.

Example market_price_na :
  Market.price_record (mkWatch "A" "5" "n/a") = Raise ValueError.
Proof. reflexivity. Qed.

Example market_price_too_long :
  Market.price_record
    (mkWatch "A" "5" (string_of_list_ascii (repeat "9"%char 4301) ++ ".00"))
  = Raise ValueError.
Proof. vm_compute. reflexivity. Qed.

(** ** Pagination *)

Lemma seller_fetch_pages_all (pages : list Seller.Page) :
  forall (last : Seller.Page) (net : Seller.Network) (last_id : string)
         (product_list : list Seller.Product),
    (forall before page after,
       pages = before ++ page :: after ->
       Seller.total page <>
       len (product_list ++ concat (map Seller.items (before ++ [page])))) ->
    Seller.total last =
    len (product_list ++ concat (map Seller.items (pages ++ [last]))) ->
    Seller.fetch_pages (map Ok (pages ++ [last]) ++ net) last_id product_list
    = Ok (product_list ++ concat (map Seller.items (pages ++ [last]))).
Proof.
  induction pages as [|page pages IH];
    intros last net last_id product_list Hearlier Hlast; simpl in *.
  - rewrite app_nil_r in *. rewrite Hlast, Z.eqb_refl. reflexivity.
  - specialize (Hearlier [] page pages eq_refl) as Hpage. simpl in Hpage.
    rewrite app_nil_r in Hpage. apply Z.eqb_neq in Hpage. rewrite Hpage.
    rewrite app_assoc. apply IH.
    + intros before page' after ->. rewrite <- app_assoc.
      apply (Hearlier (page :: before) page' after eq_refl).
    + now rewrite <- app_assoc.
Qed.

Lemma market_fetch_pages_all (pages : list Market.Page) :
  forall (last : Market.Page) (net : Market.Network) (page : option string)
         (product_list : list Market.Entry),
    Forall (fun p => Market.not_token (Market.nextPageToken (Market.paging p))
                     = false) pages ->
    Market.not_token (Market.nextPageToken (Market.paging last)) = true ->
    Market.fetch_pages (map Ok (pages ++ [last]) ++ net) page product_list
    = Ok (product_list ++
          concat (map Market.offerMappingEntries (pages ++ [last]))).
Proof.
  induction pages as [|p pages IH];
    intros last net page product_list Hearlier Hlast; simpl.
  - rewrite Hlast, app_nil_r. reflexivity.
  - inversion Hearlier as [|p' pages' Hp Hrest]; subst.
    rewrite Hp, app_assoc. now apply IH.
Qed.

(** Both loops keep an offer id that the pages list twice. *)
Lemma get_offer_ids_keeps_duplicates :
  Seller.get_offer_ids (map Ok ozon_pages) = Ok ["A"; "B"; "A"] /\
  Market.get_offer_ids (map Ok market_pages) = Ok ["A"; "B"; "A"] /\
  ~ NoDup ["A"; "B"; "A"].
Proof.
  split; [reflexivity|]. split; [reflexivity|].
  intros H. inversion H as [|x l Hx _]; subst. apply Hx. simpl. auto.
Qed.

(** C5, amended.  When the answers of the marketplace are pages of which the
    last is the first to satisfy the continuation signal (Ozon: its total
    equals the number of products accumulated; Yandex Market: its next-page
    token is absent or empty), [get_offer_ids] returns after that page,
    whatever answers would follow, and returns the offer ids of all the
    products of the fetched pages in page order; an offer id is in the result
    as many times as the pages list it. *)
Theorem get_offer_ids_returns_fetched_ids :
  (forall (pages : list Seller.Page) (last : Seller.Page) (net : Seller.Network),
     (forall before page after,
        pages = before ++ page :: after ->
        Seller.total page <>
        len (concat (map Seller.items (before ++ [page])))) ->
     Seller.total last = len (concat (map Seller.items (pages ++ [last]))) ->
     Seller.get_offer_ids (map Ok (pages ++ [last]) ++ net)
     = Ok (map Seller.product_offer_id
             (concat (map Seller.items (pages ++ [last]))))) /\
  (forall (pages : list Market.Page) (last : Market.Page) (net : Market.Network),
     Forall (fun p => Market.not_token (Market.nextPageToken (Market.paging p))
                      = false) pages ->
     Market.not_token (Market.nextPageToken (Market.paging last)) = true ->
     Market.get_offer_ids (map Ok (pages ++ [last]) ++ net)
     = Ok (map (fun product => Market.shopSku (Market.offer product))
             (concat (map Market.offerMappingEntries (pages ++ [last]))))).
Proof.
  split.
  - intros pages last net Hearlier Hlast. unfold Seller.get_offer_ids.
    now rewrite (seller_fetch_pages_all pages last net "" [] Hearlier Hlast).
  - intros pages last net Hearlier Hlast. unfold Market.get_offer_ids.
    now rewrite (market_fetch_pages_all pages last net (Some "") []
                   Hearlier Hlast).
Qed.

Lemma get_offer_ids_returns_fetched_ids_witness :
  Market.get_offer_ids
    (map Ok ([Market.mkPage [Market.mkEntry (Market.mkOffer "A")]
                (Market.mkPaging (Some "t1"))]
             ++ [Market.mkPage [Market.mkEntry (Market.mkOffer "B")]
                   (Market.mkPaging (Some ""))])
     ++ [Raise HTTPError])
  = Ok ["A"; "B"].
Proof.
  apply (proj2 get_offer_ids_returns_fetched_ids
           [Market.mkPage [Market.mkEntry (Market.mkOffer "A")]
              (Market.mkPaging (Some "t1"))]
           (Market.mkPage [Market.mkEntry (Market.mkOffer "B")]
              (Market.mkPaging (Some "")))
           [Raise HTTPError]).
  - repeat constructor.
  - reflexivity.
Defined.

(** ** Chunks *)

Section Divide.

Variable A : Type.
Variable lst : list A.
Variable n : Z.
Hypothesis n_positive : 1 <= n.

Lemma skipn_past_end (i : Z) :
  len lst <= i -> skipn (Z.to_nat i) lst = [].
Proof. intros H. apply skipn_all2. unfold len in H. lia. Qed.

Lemma slice_chunk (i : Z) :
  0 <= i ->
  slice lst i (i + n) = firstn (Z.to_nat n) (skipn (Z.to_nat i) lst).
Proof. intros _. unfold slice. do 2 f_equal. lia. Qed.

(** The chunks cut from index [i] on make up the list from [i] on. *)
Lemma chunks_from (fuel : nat) :
  forall i,
    0 <= i ->
    (length (skipn (Z.to_nat i) lst) <= fuel)%nat ->
    let chunks := map (fun j => slice lst j (j + n))
                      (range_up fuel i (len lst) n) in
    concat chunks = skipn (Z.to_nat i) lst /\
    Forall (fun chunk => 1 <= len chunk <= n) chunks /\
    (forall before chunk after,
       chunks = before ++ chunk :: after -> after <> [] -> len chunk = n).
Proof.
  induction fuel as [|fuel IH]; intros i Hi Hfuel; cbn [range_up].
  - simpl. apply Nat.le_0_r, length_zero_iff_nil in Hfuel. rewrite Hfuel.
    split; [reflexivity|]. split; [constructor|].
    intros [|x before] chunk after H; discriminate H.
  - destruct (Z.ltb_spec i (len lst)) as [Hlt|Hge].
    2:{ cbn [map concat]. rewrite (skipn_past_end i Hge).
        split; [reflexivity|]. split; [constructor|].
        intros [|x before] chunk after H; discriminate H. }
    assert (Hlen : length (skipn (Z.to_nat i) lst)
                   = (length lst - Z.to_nat i)%nat) by apply length_skipn.
    assert (Hnext : skipn (Z.to_nat (i + n)) lst
                    = skipn (Z.to_nat n) (skipn (Z.to_nat i) lst)).
    { rewrite skipn_skipn. f_equal. lia. }
    destruct (IH (i + n)) as (Hcat & Hall & Hfull).
    { lia. }
    { rewrite length_skipn. unfold len in Hlt. lia. }
    cbn [map concat]. rewrite (slice_chunk i Hi).
    split; [|split].
    + rewrite Hcat, Hnext. apply firstn_skipn.
    + constructor; [|exact Hall].
      unfold len in *. rewrite length_firstn, Hlen. lia.
    + intros [|x before] chunk after Heq Hafter; simpl in Heq;
        injection Heq as <- Hrest.
      * assert (Hmore : i + n < len lst).
        { destruct fuel as [|fuel']; cbn [range_up] in Hrest.
          - now subst after.
          - destruct (Z.ltb_spec (i + n) (len lst)); [assumption|].
            now subst after. }
        unfold len in *. rewrite length_firstn, Hlen. lia.
      * now apply (Hfull before chunk after).
Qed.

End Divide.

(** C6.  For a chunk size of at least 1, [divide] yields chunks whose
    concatenation, in order, is the list; no chunk is empty or longer than
    the chunk size, and every chunk but the last has exactly that size. *)
Theorem divide_chunks (A : Type) (lst : list A) (n : Z) :
  1 <= n ->
  exists chunks,
    divide lst n = Ok chunks /\
    concat chunks = lst /\
    Forall (fun chunk => 1 <= len chunk <= n) chunks /\
    (forall before chunk after,
       chunks = before ++ chunk :: after -> after <> [] -> len chunk = n).
Proof.
  intros Hn. unfold divide, range0.
  destruct (Z.eqb_spec n 0); [lia|].
  destruct (Z.ltb_spec n 0); [lia|]. simpl.
  eexists. split; [reflexivity|].
  apply (chunks_from A lst n Hn (Z.to_nat (len lst)) 0); [lia|].
  simpl. unfold len. lia.
Qed.

Lemma divide_chunks_witness :
  1 <= 3 /\
  exists chunks,
    divide [1; 2; 3; 4; 5; 6; 7] 3 = Ok chunks /\
    concat chunks = [1; 2; 3; 4; 5; 6; 7] /\
    Forall (fun chunk => 1 <= len chunk <= 3) chunks /\
    (forall before chunk after,
       chunks = before ++ chunk :: after -> after <> [] -> len chunk = 3).
Proof.
  assert (H : 1 <= 3) by lia.
  split; [exact H|]. exact (divide_chunks Z [1; 2; 3; 4; 5; 6; 7] 3 H).
Defined.

Example divide_seven_by_three :
  divide [1; 2; 3; 4; 5; 6; 7] 3 = Ok [[1; 2; 3]; [4; 5; 6]; [7]].
Proof. reflexivity. Qed.

(** ** The caller's offer-id list *)

(** With distinct offer ids, [create_prices] builds nothing from the list as
    [create_stocks] leaves it. *)
Lemma create_prices_after_create_stocks (watch_remnants : list Watch)
    (offer_ids : list string) (stocks : list Seller.Stock)
    (remaining : list string) :
  NoDup offer_ids ->
  Seller.create_stocks watch_remnants offer_ids = (Ok stocks, remaining) ->
  Seller.create_prices watch_remnants remaining = Ok [].
Proof.
  intros Hnd H. apply create_prices_with_none.
  apply (create_stocks_with_leaves_no_code _ Seller.mkStock Seller.offer_id
           Seller.stock (fun _ _ => eq_refl) (fun _ _ => eq_refl)
           _ _ _ _ H Hnd).
Qed.

(** C7.  [create_stocks] changes the list it is given: on the end-to-end
    scenario the caller's [offer_ids] is [["C"]] after the call, for both
    marketplaces.  [main] of [seller.py] then passes that list to
    [create_prices] and gets no price record, where the list as fetched gives
    the two of the scenario. *)
Theorem create_stocks_changes_offer_ids :
  snd (Seller.create_stocks scenario_feed scenario_offer_ids) = ["C"] /\
  snd (Market.create_stocks "2022-01-01T00:00:00Z" scenario_feed
         scenario_offer_ids "warehouse_id") = ["C"] /\
  Seller.main_try
    [Ok (Seller.mkPage [Seller.mkProduct 1 "A"; Seller.mkProduct 2 "B";
                        Seller.mkProduct 3 "C"] 3 "3")]
    (fun _ => Ok tt) (fun _ => Ok tt) scenario_feed
  = Ok ([Seller.mkStock "A" 100; Seller.mkStock "B" 0; Seller.mkStock "C" 0],
        []) /\
  Seller.create_prices scenario_feed scenario_offer_ids
  = Ok [Seller.mkPrice "UNKNOWN" "RUB" "A" "0" "100";
        Seller.mkPrice "UNKNOWN" "RUB" "B" "0" "50"].
Proof. repeat split; reflexivity. Qed.

(** ** Failures *)

Lemma stock_count_exn (descriptor : string) (e : exn) :
  stock_count descriptor = Raise e -> e = ValueError.
Proof. intros H. now apply stock_count_raises in H. Qed.

Lemma match_rows_exn (Stock : Type) (record : string -> Z -> Stock)
    (watch_remnants : list Watch) :
  forall offer_ids stocks e,
    fst (match_rows record watch_remnants offer_ids stocks) = Raise e ->
    e = ValueError.
Proof.
  induction watch_remnants as [|w rest IH]; intros offer_ids stocks e;
    simpl; [discriminate|].
  destruct (contains (code w) offer_ids); [|apply IH].
  destruct (stock_count (quantity w)) as [n|e0] eqn:Hn; [apply IH|].
  simpl. intros H. injection H as <-. exact (stock_count_exn _ _ Hn).
Qed.

Lemma create_stocks_with_exn (Stock : Type) (record : string -> Z -> Stock)
    (watch_remnants : list Watch) (offer_ids : list string) (e : exn) :
  fst (create_stocks_with record watch_remnants offer_ids) = Raise e ->
  e = ValueError.
Proof.
  unfold create_stocks_with.
  destruct (match_rows record watch_remnants offer_ids []) as [[rows|e0] rem]
    eqn:Hrows; simpl; [discriminate|].
  intros H. injection H as <-.
  apply (match_rows_exn _ record watch_remnants offer_ids [] e0).
  now rewrite Hrows.
Qed.

Lemma create_prices_with_exn (Price : Type) (record : Watch -> result Price)
    (watch_remnants : list Watch) (offer_ids : list string) (e : exn) :
  (forall watch e', record watch = Raise e' -> e' = ValueError) ->
  create_prices_with record watch_remnants offer_ids = Raise e ->
  e = ValueError.
Proof.
  intros Hrec. induction watch_remnants as [|w rest IH]; [discriminate|].
  rewrite create_prices_with_cons.
  destruct (contains (code w) offer_ids); [|exact IH].
  destruct (record w) as [p|e0] eqn:Hp; simpl.
  - destruct (create_prices_with record rest offer_ids); simpl;
      [discriminate|].
    intros H. injection H as <-. now apply IH.
  - intros H. injection H as <-. exact (Hrec _ _ Hp).
Qed.

Lemma market_price_record_exn (watch : Watch) (e : exn) :
  Market.price_record watch = Raise e -> e = ValueError.
Proof.
  rewrite market_price_record_digits.
  destruct (price_digits (price_text watch)) as [|c digits].
  - intros H. now injection H.
  - cbv zeta.
    destruct (len (c :: digits) >? int_max_str_digits); intros H;
      [now injection H | discriminate H].
Qed.

(** [create_stocks] reads the code and the quantity of a feed row, not its
    price text. *)
Lemma match_rows_ignores_price (Stock : Type) (record : string -> Z -> Stock)
    (feed1 : list Watch) :
  forall feed2 offer_ids stocks,
    map code feed1 = map code feed2 ->
    map quantity feed1 = map quantity feed2 ->
    match_rows record feed1 offer_ids stocks
    = match_rows record feed2 offer_ids stocks.
Proof.
  induction feed1 as [|w1 feed1 IH]; intros [|w2 feed2] offer_ids stocks Hc Hq;
    try discriminate; [reflexivity|].
  simpl in *. injection Hc as Hc1 Hc. injection Hq as Hq1 Hq.
  rewrite Hc1, Hq1.
  destruct (contains (code w2) offer_ids); [|now apply IH].
  destruct (stock_count (quantity w2)); [now apply IH | reflexivity].
Qed.

(** A price text without digits stops [market.py]'s price records, not the
    stock records, and stops nothing in [seller.py]. *)
Lemma malformed_price_keeps_stock_records :
  Market.price_record (mkWatch "A" "5" "n/a") = Raise ValueError /\
  Market.create_prices [mkWatch "A" "5" "n/a"] ["A"] = Raise ValueError /\
  Market.create_stocks "2022-01-01T00:00:00Z" [mkWatch "A" "5" "n/a"] ["A"]
    "warehouse_id"
  = (Ok [Market.stock_record "warehouse_id" "2022-01-01T00:00:00Z" "A" 5], []) /\
  Seller.create_stocks [mkWatch "A" "5" "n/a"] ["A"]
  = (Ok [Seller.mkStock "A" 5], []) /\
  Seller.create_prices [mkWatch "A" "5" "n/a"] ["A"]
  = Ok [Seller.mkPrice "UNKNOWN" "RUB" "A" "0" ""].
Proof. repeat split; reflexivity. Qed.

(** [create_prices] of [seller.py] builds its records without a call that
    can raise. *)
Lemma seller_create_prices_returns (watch_remnants : list Watch)
    (offer_ids : list string) :
  exists prices, Seller.create_prices watch_remnants offer_ids = Ok prices.
Proof.
  induction watch_remnants as [|w rest [prices IH]]; [now exists []|].
  unfold Seller.create_prices in *. rewrite create_prices_with_cons.
  destruct (contains (code w) offer_ids); [|now exists prices].
  simpl. rewrite IH. simpl. eauto.
Qed.

(** C8, amended.  When the first feed row carrying some code of the offer-id
    list has a quantity descriptor that gives no count, [create_stocks]
    raises [ValueError] and returns no stock record; when a feed row whose
    code is in the offer-id list has a price text without a digit before its
    first ["."], [create_prices] of [market.py] raises [ValueError] and
    returns no price record.  The two calls fail apart from each other:
    [create_stocks] does not read the price text. *)
Theorem malformed_row_stops_its_call :
  (forall before watch after offer_ids e,
     stock_count (quantity watch) = Raise e ->
     (forall w, In w before -> code w <> code watch) ->
     In (code watch) offer_ids ->
     fst (Seller.create_stocks (before ++ watch :: after) offer_ids)
     = Raise ValueError /\
     forall date warehouse_id,
       fst (Market.create_stocks date (before ++ watch :: after) offer_ids
              warehouse_id) = Raise ValueError) /\
  (forall watch_remnants offer_ids watch,
     In watch watch_remnants -> In (code watch) offer_ids ->
     price_digits (price_text watch) = [] ->
     Market.create_prices watch_remnants offer_ids = Raise ValueError) /\
  (forall feed1 feed2 offer_ids,
     map code feed1 = map code feed2 ->
     map quantity feed1 = map quantity feed2 ->
     Seller.create_stocks feed1 offer_ids = Seller.create_stocks feed2 offer_ids /\
     forall date warehouse_id,
       Market.create_stocks date feed1 offer_ids warehouse_id
       = Market.create_stocks date feed2 offer_ids warehouse_id).
Proof.
  split; [|split].
  - intros before watch after offer_ids e Hbad Hfirst Hin.
    split; [|intros date warehouse_id].
    + destruct (create_stocks_with_raises _ Seller.mkStock before after watch e
                  Hbad Hfirst offer_ids Hin) as [e' He'].
      unfold Seller.create_stocks. rewrite He'. f_equal.
      exact (create_stocks_with_exn _ _ _ _ _ He').
    + destruct (create_stocks_with_raises _
                  (Market.stock_record warehouse_id date) before after watch e
                  Hbad Hfirst offer_ids Hin) as [e' He'].
      unfold Market.create_stocks. rewrite He'. f_equal.
      exact (create_stocks_with_exn _ _ _ _ _ He').
  - intros watch_remnants offer_ids watch Hw Hin Hdigits.
    assert (Hbad : Market.price_record watch = Raise ValueError).
    { rewrite market_price_record_digits.
      now rewrite Hdigits. }
    destruct (create_prices_with_raises _ Market.price_record watch_remnants
                offer_ids watch ValueError Hw Hin Hbad) as [e' He'].
    unfold Market.create_prices. rewrite He'. f_equal.
    exact (create_prices_with_exn _ _ _ _ _ market_price_record_exn He').
  - intros feed1 feed2 offer_ids Hc Hq.
    unfold Seller.create_stocks, Market.create_stocks, create_stocks_with.
    split; [|intros date warehouse_id];
      now rewrite (match_rows_ignores_price _ _ feed1 feed2 offer_ids [] Hc Hq).
Qed.

Lemma malformed_row_stops_its_call_witness :
  fst (Seller.create_stocks
         ([mkWatch "B" "3" "50.00"] ++ mkWatch "A" "abc" "100.00" :: [])
         ["A"; "B"])
  = Raise ValueError.
Proof.
  apply (proj1 malformed_row_stops_its_call
           [mkWatch "B" "3" "50.00"] (mkWatch "A" "abc" "100.00") []
           ["A"; "B"] ValueError).
  - reflexivity.
  - intros w [<-|[]]. discriminate.
  - simpl. auto.
Defined.

(** ** The values the records carry *)

(** A descriptor that reads as a negative integer is published as it is. *)
Lemma negative_quantity_gives_negative_count :
  exists stocks,
    fst (Seller.create_stocks [mkWatch "A" "-5" "100.00"] ["A"]) = Ok stocks /\
    ~ Forall (fun s => 0 <= Seller.stock s) stocks.
Proof.
  exists [Seller.mkStock "A" (-5)]. split; [reflexivity|].
  intros H. inversion H as [|s l Hs _]; subst. simpl in Hs. lia.
Qed.

Lemma counts_nonneg (Stock : Type) (id_of : Stock -> string)
    (count_of : Stock -> Z) (watch_remnants : list Watch)
    (stocks : list Stock) :
  Forall (fun s =>
            count_of s = 0 \/
            exists watch, In watch watch_remnants /\
                          code watch = id_of s /\
                          stock_count (quantity watch) = Ok (count_of s)) stocks ->
  (forall watch n, In watch watch_remnants ->
                   stock_count (quantity watch) = Ok n -> 0 <= n) ->
  Forall (fun s => 0 <= count_of s) stocks.
Proof.
  intros Hall Hnonneg. eapply Forall_impl; [|exact Hall].
  intros s [->|(w & Hw & _ & Hn)]; [lia|]. exact (Hnonneg w _ Hw Hn).
Qed.

(** C9, amended.  When [create_stocks] returns, the count of every stock
    record is 0 or the integer that the quantity rule gives for a feed row
    with the record's code (100, 0 or what [int] reads), so every count is
    non-negative as soon as no feed descriptor reads as a negative integer.
    When [create_prices] returns, every price record of [market.py] carries a
    non-negative integer and the currency ["RUR"], and every price record of
    [seller.py] carries a string of decimal digits and the currency
    ["RUB"]. *)
Theorem record_values (watch_remnants : list Watch) (offer_ids : list string) :
  (forall stocks remaining,
     Seller.create_stocks watch_remnants offer_ids = (Ok stocks, remaining) ->
     Forall (fun s =>
               Seller.stock s = 0 \/
               exists watch, In watch watch_remnants /\
                             code watch = Seller.offer_id s /\
                             stock_count (quantity watch) = Ok (Seller.stock s))
       stocks /\
     ((forall watch n, In watch watch_remnants ->
                       stock_count (quantity watch) = Ok n -> 0 <= n) ->
      Forall (fun s => 0 <= Seller.stock s) stocks)) /\
  (forall date warehouse_id stocks remaining,
     Market.create_stocks date watch_remnants offer_ids warehouse_id
     = (Ok stocks, remaining) ->
     Forall (fun s =>
               Market.items s
               = [Market.mkItem (Market.first_count s) "FIT" date] /\
               (Market.first_count s = 0 \/
                exists watch, In watch watch_remnants /\
                              code watch = Market.sku s /\
                              stock_count (quantity watch)
                              = Ok (Market.first_count s)))
       stocks /\
     ((forall watch n, In watch watch_remnants ->
                       stock_count (quantity watch) = Ok n -> 0 <= n) ->
      Forall (fun s => 0 <= Market.first_count s) stocks)) /\
  (forall prices,
     Seller.create_prices watch_remnants offer_ids = Ok prices ->
     Forall (fun p =>
               Seller.currency_code p = "RUB" /\
               Forall (fun c => is_digit c = true)
                 (list_ascii_of_string (Seller.price_value p))) prices) /\
  (forall prices,
     Market.create_prices watch_remnants offer_ids = Ok prices ->
     Forall (fun p =>
               0 <= Market.value (Market.price p) /\
               Market.currencyId (Market.price p) = "RUR") prices).
Proof.
  split; [|split; [|split]].
  - intros stocks remaining H.
    pose proof (create_stocks_with_counts _ Seller.mkStock Seller.offer_id
                  Seller.stock (fun _ _ => eq_refl) (fun _ _ => eq_refl)
                  _ _ _ _ H) as Hcounts.
    split; [exact Hcounts|]. now apply counts_nonneg with (id_of := Seller.offer_id).
  - intros date warehouse_id stocks remaining H.
    pose proof (create_stocks_with_counts _
                  (Market.stock_record warehouse_id date) Market.sku
                  Market.first_count (fun _ _ => eq_refl) (fun _ _ => eq_refl)
                  _ _ _ _ H) as Hcounts.
    pose proof (create_stocks_with_shape _
                  (Market.stock_record warehouse_id date) Market.sku
                  Market.first_count (fun _ _ => eq_refl) (fun _ _ => eq_refl)
                  _ _ _ _ H) as Hshape.
    split; [|now apply counts_nonneg with (id_of := Market.sku)].
    apply Forall_forall. intros s Hs.
    rewrite Forall_forall in Hcounts, Hshape.
    split; [|now apply Hcounts].
    rewrite (Hshape s Hs) at 1. reflexivity.
  - intros prices H. apply Forall_forall. intros p Hp.
    destruct (create_prices_with_In _ _ _ _ _ p H Hp) as (w & _ & _ & Hrec).
    injection Hrec as <-. simpl. split; [reflexivity|].
    rewrite price_conversion_digits, list_ascii_of_string_of_list_ascii.
    apply price_digits_are_digits.
  - intros prices H. apply Forall_forall. intros p Hp.
    destruct (create_prices_with_In _ _ _ _ _ p H Hp) as (w & _ & _ & Hrec).
    rewrite market_price_record_digits in Hrec.
    pose proof (decimal_value_nonneg _ (price_digits_are_digits (price_text w)))
      as Hnonneg.
    destruct (price_digits (price_text w)) as [|c digits]; [discriminate|].
    cbv zeta in Hrec.
    destruct (len (c :: digits) >? int_max_str_digits); [discriminate Hrec|].
    injection Hrec as <-. simpl. auto.
Qed.

Lemma record_values_witness :
  exists stocks remaining prices,
    Seller.create_stocks scenario_feed scenario_offer_ids
    = (Ok stocks, remaining) /\
    Market.create_prices scenario_feed scenario_offer_ids = Ok prices /\
    Forall (fun s => 0 <= Seller.stock s) stocks /\
    Forall (fun p =>
              0 <= Market.value (Market.price p) /\
              Market.currencyId (Market.price p) = "RUR") prices.
Proof.
  destruct (record_values scenario_feed scenario_offer_ids)
    as (Hstock & _ & _ & Hprice).
  eexists _, _, _. split; [reflexivity|]. split; [reflexivity|]. split.
  - eapply (fun stocks remaining H => proj2 (Hstock stocks remaining H)).
    + reflexivity.
    + intros w n [<-|[<-|[]]] Hn; injection Hn as <-; lia.
  - eapply Hprice. reflexivity.
Defined.

(** ** The upload pipeline *)

Lemma bind_ok (A B : Type) (r : result A) (k : A -> result B) (b : B) :
  bind r k = Ok b -> exists a, r = Ok a /\ k a = Ok b.
Proof. destruct r as [a|e]; simpl; [eauto | discriminate]. Qed.

Lemma filter_list_total (A : Type) (test : A -> result bool) (keep : A -> bool)
    (lst : list A) :
  Forall (fun x => test x = Ok (keep x)) lst ->
  filter_list test lst = Ok (filter keep lst).
Proof.
  induction 1 as [|x rest Hx _ IH]; simpl; [reflexivity|].
  now rewrite Hx, IH.
Qed.

Lemma divide_returns (A : Type) (lst : list A) (n : Z) :
  1 <= n -> exists chunks, divide lst n = Ok chunks.
Proof.
  intros Hn. unfold divide, range0.
  destruct (Z.eqb_spec n 0); [lia|].
  destruct (Z.ltb_spec n 0); [lia|]. simpl. eauto.
Qed.

Lemma for_each_accepted (A : Type) (call : A -> result unit) (lst : list A) :
  (forall x, call x = Ok tt) -> for_each call lst = Ok tt.
Proof.
  intros Hcall. induction lst as [|x rest IH]; simpl; [reflexivity|].
  now rewrite Hcall.
Qed.

Lemma market_count_not_zero (date : string) (watch_remnants : list Watch)
    (offer_ids : list string) (warehouse_id : string)
    (stocks : list Market.Stock) :
  fst (Market.create_stocks date watch_remnants offer_ids warehouse_id)
  = Ok stocks ->
  filter_list Market.count_not_zero stocks
  = Ok (filter (fun s => negb (Market.first_count s =? 0)) stocks).
Proof.
  destruct (Market.create_stocks date watch_remnants offer_ids warehouse_id)
    as [created remaining] eqn:Hcreated.
  simpl. intros ->. apply filter_list_total.
  pose proof (create_stocks_with_shape _
                (Market.stock_record warehouse_id date) Market.sku
                Market.first_count (fun _ _ => eq_refl) (fun _ _ => eq_refl)
                _ _ _ _ Hcreated) as Hshape.
  eapply Forall_impl; [|exact Hshape].
  intros s Hs. rewrite Hs. reflexivity.
Qed.

(** C10.  When [upload_stocks] returns, it returns the pair of [not_empty]
    and [stocks], where [stocks] is the list [create_stocks] built from the
    feed and the offer ids fetched, and [not_empty] holds the records of
    [stocks] whose count is not 0, in the order of [stocks]; and it does
    return that pair when the offer ids are fetched, [create_stocks] returns
    and the marketplace accepts every chunk.  This holds for both
    marketplaces. *)
Theorem upload_stocks_result (watch_remnants : list Watch) :
  (forall net update_stocks not_empty stocks,
     Seller.upload_stocks net update_stocks watch_remnants
     = Ok (not_empty, stocks) ->
     (exists offer_ids,
        Seller.get_offer_ids net = Ok offer_ids /\
        fst (Seller.create_stocks watch_remnants offer_ids) = Ok stocks) /\
     not_empty = filter (fun s => negb (Seller.stock s =? 0)) stocks) /\
  (forall net update_stocks offer_ids stocks,
     Seller.get_offer_ids net = Ok offer_ids ->
     fst (Seller.create_stocks watch_remnants offer_ids) = Ok stocks ->
     (forall chunk, update_stocks chunk = Ok tt) ->
     Seller.upload_stocks net update_stocks watch_remnants
     = Ok (filter (fun s => negb (Seller.stock s =? 0)) stocks, stocks)) /\
  (forall date net update_stocks warehouse_id not_empty stocks,
     Market.upload_stocks date net update_stocks watch_remnants warehouse_id
     = Ok (not_empty, stocks) ->
     (exists offer_ids,
        Market.get_offer_ids net = Ok offer_ids /\
        fst (Market.create_stocks date watch_remnants offer_ids warehouse_id)
        = Ok stocks) /\
     not_empty = filter (fun s => negb (Market.first_count s =? 0)) stocks) /\
  (forall date net update_stocks warehouse_id offer_ids stocks,
     Market.get_offer_ids net = Ok offer_ids ->
     fst (Market.create_stocks date watch_remnants offer_ids warehouse_id)
     = Ok stocks ->
     (forall chunk, update_stocks chunk = Ok tt) ->
     Market.upload_stocks date net update_stocks watch_remnants warehouse_id
     = Ok (filter (fun s => negb (Market.first_count s =? 0)) stocks, stocks)).
Proof.
  split; [|split; [|split]].
  - intros net update_stocks not_empty stocks H. unfold Seller.upload_stocks in H.
    apply bind_ok in H as (offer_ids & Hids & H).
    apply bind_ok in H as (stocks' & Hstocks & H).
    apply bind_ok in H as (chunks & _ & H).
    apply bind_ok in H as (u & _ & H).
    injection H as <- <-. split; [now exists offer_ids | reflexivity].
  - intros net update_stocks offer_ids stocks Hids Hstocks Hupdate.
    unfold Seller.upload_stocks. rewrite Hids. cbn [bind].
    rewrite Hstocks. cbn [bind].
    destruct (divide_returns _ stocks 100) as [chunks ->]; [lia|]. cbn [bind].
    now rewrite (for_each_accepted _ update_stocks chunks Hupdate).
  - intros date net update_stocks warehouse_id not_empty stocks H.
    unfold Market.upload_stocks in H.
    apply bind_ok in H as (offer_ids & Hids & H).
    apply bind_ok in H as (stocks' & Hstocks & H).
    apply bind_ok in H as (chunks & _ & H).
    apply bind_ok in H as (u & _ & H).
    apply bind_ok in H as (kept & Hkept & H).
    injection H as <- <-. split; [now exists offer_ids|].
    rewrite (market_count_not_zero _ _ _ _ _ Hstocks) in Hkept.
    now injection Hkept.
  - intros date net update_stocks warehouse_id offer_ids stocks
      Hids Hstocks Hupdate.
    unfold Market.upload_stocks. rewrite Hids. cbn [bind].
    rewrite Hstocks. cbn [bind].
    destruct (divide_returns _ stocks 2000) as [chunks ->]; [lia|]. cbn [bind].
    rewrite (for_each_accepted _ update_stocks chunks Hupdate). cbn [bind].
    now rewrite (market_count_not_zero _ _ _ _ _ Hstocks).
Qed.

Lemma upload_stocks_result_witness :
  exists not_empty stocks,
    Seller.upload_stocks (map Ok ozon_pages) (fun _ => Ok tt) scenario_feed
    = Ok (not_empty, stocks) /\
    not_empty = filter (fun s => negb (Seller.stock s =? 0)) stocks /\
    not_empty = [Seller.mkStock "A" 100].
Proof.
  eexists _, _. split; [reflexivity|]. split; [|reflexivity].
  apply (proj1 (upload_stocks_result scenario_feed) (map Ok ozon_pages)
           (fun _ => Ok tt)).
  reflexivity.
Defined.

(** * Further properties of the two files *)

(** ** Pagination: when the loops return and when they raise *)

Lemma seller_fetch_pages_inv (net : Seller.Network) :
  forall (last_id : string) (product_list fetched : list Seller.Product),
    Seller.fetch_pages net last_id product_list = Ok fetched ->
    exists pages last rest,
      net = map Ok (pages ++ [last]) ++ rest /\
      (forall before page after,
         pages = before ++ page :: after ->
         Seller.total page <>
         len (product_list ++ concat (map Seller.items (before ++ [page])))) /\
      Seller.total last = len fetched /\
      fetched = product_list ++ concat (map Seller.items (pages ++ [last])).
Proof.
  induction net as [|[page|e] net IH]; intros last_id product_list fetched H;
    simpl in H; try discriminate.
  destruct (Z.eqb_spec (Seller.total page)
              (len (product_list ++ Seller.items page))) as [Heq|Hne].
  - injection H as <-. exists [], page, net. simpl. rewrite app_nil_r.
    repeat split; auto.
    intros [|x before] page' after Hnil; discriminate Hnil.
  - destruct (IH _ _ _ H) as (pages & last & rest & -> & Hearlier & Hlast & ->).
    exists (page :: pages), last, rest. simpl. rewrite <- app_assoc.
    split; [reflexivity|].
    split; [|split; [now rewrite app_assoc | reflexivity]].
    intros [|x before] page' after Hsplit; simpl in Hsplit;
      injection Hsplit as <- Hsplit.
    + simpl. now rewrite app_nil_r.
    + simpl. rewrite app_assoc. now apply (Hearlier before page' after).
Qed.

Lemma market_fetch_pages_inv (net : Market.Network) :
  forall (page : option string) (product_list fetched : list Market.Entry),
    Market.fetch_pages net page product_list = Ok fetched ->
    exists pages last rest,
      net = map Ok (pages ++ [last]) ++ rest /\
      Forall (fun p => Market.not_token (Market.nextPageToken (Market.paging p))
                       = false) pages /\
      Market.not_token (Market.nextPageToken (Market.paging last)) = true /\
      fetched = product_list ++
                concat (map Market.offerMappingEntries (pages ++ [last])).
Proof.
  induction net as [|[p|e] net IH]; intros page product_list fetched H;
    simpl in H; try discriminate.
  destruct (Market.not_token (Market.nextPageToken (Market.paging p))) eqn:Hp.
  - injection H as <-. exists [], p, net. simpl. rewrite app_nil_r.
    repeat split; auto.
  - destruct (IH _ _ _ H) as (pages & last & rest & -> & Hearlier & Hlast & ->).
    exists (p :: pages), last, rest. simpl. rewrite <- app_assoc.
    repeat split; auto.
Qed.

Lemma seller_fetch_pages_raises (pages : list Seller.Page) :
  forall (e : exn) (rest : Seller.Network) (last_id : string)
         (product_list : list Seller.Product),
    (forall before page after,
       pages = before ++ page :: after ->
       Seller.total page <>
       len (product_list ++ concat (map Seller.items (before ++ [page])))) ->
    Seller.fetch_pages (map Ok pages ++ Raise e :: rest) last_id product_list
    = Raise e.
Proof.
  induction pages as [|page pages IH];
    intros e rest last_id product_list Hearlier; simpl; [reflexivity|].
  specialize (Hearlier [] page pages eq_refl) as Hpage. simpl in Hpage.
  rewrite app_nil_r in Hpage. apply Z.eqb_neq in Hpage. rewrite Hpage.
  apply IH. intros before page' after ->. rewrite <- app_assoc.
  apply (Hearlier (page :: before) page' after eq_refl).
Qed.

Lemma market_fetch_pages_raises (pages : list Market.Page) :
  forall (e : exn) (rest : Market.Network) (page : option string)
         (product_list : list Market.Entry),
    Forall (fun p => Market.not_token (Market.nextPageToken (Market.paging p))
                     = false) pages ->
    Market.fetch_pages (map Ok pages ++ Raise e :: rest) page product_list
    = Raise e.
Proof.
  induction pages as [|p pages IH]; intros e rest page product_list Hearlier;
    simpl; [reflexivity|].
  inversion Hearlier as [|p' pages' Hp Hrest]; subst.
  rewrite Hp. now apply IH.
Qed.

(** X1.  When a request fails before a page has satisfied the continuation
    signal, [get_offer_ids] raises the error of that request and returns
    none of the offer ids of the pages fetched before it. *)
Theorem get_offer_ids_all_or_nothing :
  (forall (pages : list Seller.Page) (e : exn) (rest : Seller.Network),
     (forall before page after,
        pages = before ++ page :: after ->
        Seller.total page <>
        len (concat (map Seller.items (before ++ [page])))) ->
     Seller.get_offer_ids (map Ok pages ++ Raise e :: rest) = Raise e) /\
  (forall (pages : list Market.Page) (e : exn) (rest : Market.Network),
     Forall (fun p => Market.not_token (Market.nextPageToken (Market.paging p))
                      = false) pages ->
     Market.get_offer_ids (map Ok pages ++ Raise e :: rest) = Raise e).
Proof.
  split.
  - intros pages e rest Hearlier. unfold Seller.get_offer_ids.
    now rewrite (seller_fetch_pages_raises pages e rest "" [] Hearlier).
  - intros pages e rest Hearlier. unfold Market.get_offer_ids.
    now rewrite (market_fetch_pages_raises pages e rest (Some "") [] Hearlier).
Qed.

Lemma get_offer_ids_all_or_nothing_witness :
  Market.get_offer_ids
    (map Ok [Market.mkPage [Market.mkEntry (Market.mkOffer "A")]
               (Market.mkPaging (Some "t1"))]
     ++ Raise HTTPError :: [])
  = Raise HTTPError.
Proof.
  apply (proj2 get_offer_ids_all_or_nothing
           [Market.mkPage [Market.mkEntry (Market.mkOffer "A")]
              (Market.mkPaging (Some "t1"))] HTTPError []).
  repeat constructor.
Defined.

(** X2.  [get_offer_ids] returns only after a page that satisfies the
    continuation signal: when it returns, the answers began with pages of
    which none but the last satisfied the signal, and the value is the offer
    ids of those pages, in order. *)
Theorem get_offer_ids_returns_only_when_complete :
  (forall (net : Seller.Network) (offer_ids : list string),
     Seller.get_offer_ids net = Ok offer_ids ->
     exists pages last rest,
       net = map Ok (pages ++ [last]) ++ rest /\
       (forall before page after,
          pages = before ++ page :: after ->
          Seller.total page <>
          len (concat (map Seller.items (before ++ [page])))) /\
       Seller.total last = len (concat (map Seller.items (pages ++ [last]))) /\
       offer_ids = map Seller.product_offer_id
                     (concat (map Seller.items (pages ++ [last])))) /\
  (forall (net : Market.Network) (offer_ids : list string),
     Market.get_offer_ids net = Ok offer_ids ->
     exists pages last rest,
       net = map Ok (pages ++ [last]) ++ rest /\
       Forall (fun p => Market.not_token (Market.nextPageToken (Market.paging p))
                        = false) pages /\
       Market.not_token (Market.nextPageToken (Market.paging last)) = true /\
       offer_ids = map (fun product => Market.shopSku (Market.offer product))
                     (concat (map Market.offerMappingEntries (pages ++ [last])))).
Proof.
  split.
  - intros net offer_ids H. unfold Seller.get_offer_ids in H.
    destruct (Seller.fetch_pages net "" []) as [fetched|e] eqn:Hfetch;
      simpl in H; [|discriminate].
    injection H as <-.
    destruct (seller_fetch_pages_inv _ _ _ _ Hfetch)
      as (pages & last & rest & Hnet & Hearlier & Hlast & Hfetched).
    simpl in Hfetched. subst fetched.
    exists pages, last, rest. repeat split; auto.
  - intros net offer_ids H. unfold Market.get_offer_ids in H.
    destruct (Market.fetch_pages net (Some "") []) as [fetched|e] eqn:Hfetch;
      simpl in H; [|discriminate].
    injection H as <-.
    destruct (market_fetch_pages_inv _ _ _ _ Hfetch)
      as (pages & last & rest & Hnet & Hearlier & Hlast & Hfetched).
    simpl in Hfetched. subst fetched.
    exists pages, last, rest. repeat split; auto.
Qed.

Lemma get_offer_ids_returns_only_when_complete_witness :
  exists pages last rest,
    map Ok ozon_pages = map Ok (pages ++ [last]) ++ rest /\
    Seller.total last = len (concat (map Seller.items (pages ++ [last]))) /\
    ["A"; "B"; "A"] = map Seller.product_offer_id
                        (concat (map Seller.items (pages ++ [last]))).
Proof.
  destruct (proj1 get_offer_ids_returns_only_when_complete
              (map Ok ozon_pages) ["A"; "B"; "A"] eq_refl)
    as (pages & last & rest & Hnet & _ & Hlast & Hids).
  exists pages, last, rest. auto.
Defined.

(** X3.  When [get_offer_ids] of [seller.py] returns, it returns as many
    offer ids as the total reported by the last page it fetched: the answers
    began with pages of which none before the last satisfied the signal, the
    value is the offer ids of those pages, and its length is the total of
    the last of them. *)
Theorem seller_get_offer_ids_count (net : Seller.Network)
    (offer_ids : list string) :
  Seller.get_offer_ids net = Ok offer_ids ->
  exists pages last rest,
    net = map Ok (pages ++ [last]) ++ rest /\
    (forall before page after,
       pages = before ++ page :: after ->
       Seller.total page <>
       len (concat (map Seller.items (before ++ [page])))) /\
    offer_ids = map Seller.product_offer_id
                  (concat (map Seller.items (pages ++ [last]))) /\
    Seller.total last = len offer_ids.
Proof.
  intros H. unfold Seller.get_offer_ids in H.
  destruct (Seller.fetch_pages net "" []) as [fetched|e] eqn:Hfetch;
    simpl in H; [|discriminate].
  injection H as <-.
  destruct (seller_fetch_pages_inv _ _ _ _ Hfetch)
    as (pages & last & rest & Hnet & Hearlier & Hlast & Hfetched).
  simpl in Hfetched.
  exists pages, last, rest. split; [exact Hnet|]. split; [exact Hearlier|].
  split; [now rewrite Hfetched|].
  rewrite Hlast. unfold len. now rewrite length_map.
Qed.

Lemma seller_get_offer_ids_count_witness :
  exists pages last rest,
    map Ok ozon_pages = map Ok (pages ++ [last]) ++ rest /\
    ["A"; "B"; "A"] = map Seller.product_offer_id
                        (concat (map Seller.items (pages ++ [last]))) /\
    Seller.total last = len ["A"; "B"; "A"].
Proof.
  destruct (seller_get_offer_ids_count (map Ok ozon_pages) ["A"; "B"; "A"]
              eq_refl)
    as (pages & last & rest & Hnet & _ & Hids & Hlast).
  exists pages, last, rest. auto.
Defined.

(** ** Reconciliation: order, leftovers and the caller's list *)

Lemma filter_all (A : Type) (f : A -> bool) (l : list A) :
  (forall x, In x l -> f x = true) -> filter f l = l.
Proof.
  intros H. induction l as [|x l IH]; simpl; [reflexivity|].
  rewrite (H x (or_introl eq_refl)). f_equal. apply IH.
  intros y Hy. apply H. now right.
Qed.

Lemma filter_twice (A : Type) (f g : A -> bool) (l : list A) :
  filter f (filter g l) = filter (fun x => g x && f x) l.
Proof.
  induction l as [|x l IH]; simpl; [reflexivity|].
  destruct (g x); simpl; [|exact IH]. destruct (f x); now rewrite IH.
Qed.

Lemma remove_filter (x : string) (lst : list string) :
  NoDup lst -> remove x lst = filter (fun y => negb (String.eqb y x)) lst.
Proof.
  induction 1 as [|y rest Hy Hnd IH]; simpl; [reflexivity|].
  destruct (String.eqb_spec y x) as [->|Hne]; simpl.
  - symmetry. apply filter_all. intros z Hz.
    destruct (String.eqb_spec z x) as [->|]; [contradiction | reflexivity].
  - now rewrite IH.
Qed.

Lemma contains_remove_other (x y : string) (lst : list string) :
  y <> x -> contains y (remove x lst) = contains y lst.
Proof.
  intros Hne. destruct (contains y lst) eqn:Hin.
  - apply contains_In. apply remove_other; [exact Hne|]. now apply contains_In.
  - apply contains_not_In. intros H. apply contains_not_In in Hin.
    apply Hin. eapply remove_incl, H.
Qed.

Section CreateStocksOrder.

Variable Stock : Type.
Variable record : string -> Z -> Stock.
Variable id_of : Stock -> string.
Hypothesis id_of_record : forall offer_id n, id_of (record offer_id n) = offer_id.

(** The loop over a feed in two parts is the loop over the first part, then
    the loop over the second on what the first left. *)
Lemma match_rows_app (feed1 feed2 : list Watch) :
  forall offer_ids stocks,
    match_rows record (feed1 ++ feed2) offer_ids stocks =
    match match_rows record feed1 offer_ids stocks with
    | (Ok stocks1, remaining) => match_rows record feed2 remaining stocks1
    | (Raise e, remaining) => (Raise e, remaining)
    end.
Proof.
  induction feed1 as [|w feed1 IH]; intros offer_ids stocks; simpl;
    [reflexivity|].
  destruct (contains (code w) offer_ids); [|apply IH].
  destruct (stock_count (quantity w)); [apply IH | reflexivity].
Qed.

Lemma match_rows_unknown (watch_remnants : list Watch) :
  forall offer_ids stocks,
    (forall watch, In watch watch_remnants -> ~ In (code watch) offer_ids) ->
    match_rows record watch_remnants offer_ids stocks = (Ok stocks, offer_ids).
Proof.
  induction watch_remnants as [|w rest IH]; intros offer_ids stocks Hno; simpl;
    [reflexivity|].
  assert (Hw : contains (code w) offer_ids = false).
  { apply contains_not_In, Hno. now left. }
  rewrite Hw. apply IH. intros w' Hw'. apply Hno. now right.
Qed.

Lemma match_rows_remaining (watch_remnants : list Watch) :
  forall offer_ids stocks rows remaining,
    NoDup offer_ids ->
    match_rows record watch_remnants offer_ids stocks = (Ok rows, remaining) ->
    remaining
    = filter (fun offer_id =>
                negb (contains offer_id (map code watch_remnants))) offer_ids.
Proof.
  induction watch_remnants as [|w rest IH];
    intros offer_ids stocks rows remaining Hnd H; simpl in H.
  - injection H as _ <-. symmetry. now apply filter_all.
  - cbn [map].
    destruct (contains (code w) offer_ids) eqn:Hin.
    + destruct (stock_count (quantity w)) as [n|e]; [|discriminate].
      rewrite (IH _ _ _ _ (proj1 (remove_NoDup (code w) _ Hnd)) H).
      rewrite (remove_filter _ _ Hnd), filter_twice.
      apply filter_ext. intros offer_id. cbn [contains].
      rewrite (String.eqb_sym (code w) offer_id).
      now destruct (String.eqb offer_id (code w)).
    + rewrite (IH _ _ _ _ Hnd H).
      apply filter_ext_in. intros offer_id Hid. cbn [contains].
      destruct (String.eqb_spec (code w) offer_id) as [Heq|]; [|reflexivity].
      apply contains_not_In in Hin. subst offer_id. contradiction.
Qed.

Lemma match_rows_feed_order (watch_remnants : list Watch) :
  forall offer_ids rows remaining,
    NoDup (map code watch_remnants) ->
    match_rows record watch_remnants offer_ids [] = (Ok rows, remaining) ->
    map id_of rows
    = filter (fun c => contains c offer_ids) (map code watch_remnants).
Proof.
  induction watch_remnants as [|w rest IH];
    intros offer_ids rows remaining Hnd H.
  - simpl in H. injection H as <- _. reflexivity.
  - cbn [map] in *. apply NoDup_cons_iff in Hnd as [Hw Hnd].
    rewrite match_rows_cons in H. cbn [filter].
    destruct (contains (code w) offer_ids) eqn:Hin.
    + destruct (stock_count (quantity w)) as [n|e]; [|discriminate].
      destruct (match_rows record rest (remove (code w) offer_ids) [])
        as [[later|e] remaining'] eqn:Hlater; simpl in H; [|discriminate].
      injection H as <- _. cbn [map]. rewrite id_of_record. f_equal.
      rewrite (IH _ _ _ Hnd Hlater).
      apply filter_ext_in. intros c Hc. apply contains_remove_other.
      intros ->. contradiction.
    + now apply (IH _ _ remaining).
Qed.

End CreateStocksOrder.

Lemma create_stocks_with_unknown (Stock : Type) (record : string -> Z -> Stock)
    (watch_remnants : list Watch) (offer_ids : list string) :
  (forall watch, In watch watch_remnants -> ~ In (code watch) offer_ids) ->
  create_stocks_with record watch_remnants offer_ids
  = (Ok (map (fun offer_id => record offer_id 0) offer_ids), offer_ids).
Proof.
  intros Hno. unfold create_stocks_with.
  now rewrite (match_rows_unknown _ record watch_remnants offer_ids [] Hno).
Qed.

(** X4.  When no feed row carries one of the caller's offer ids, as with an
    empty feed or an empty offer-id list, [create_stocks] returns a record
    with count 0 for every offer id, in the order of the list, leaves the
    list as it was, and reads no quantity descriptor, so that it cannot
    raise. *)
Theorem create_stocks_without_known_code (watch_remnants : list Watch)
    (offer_ids : list string) :
  (forall watch, In watch watch_remnants -> ~ In (code watch) offer_ids) ->
  Seller.create_stocks watch_remnants offer_ids
  = (Ok (map (fun offer_id => Seller.mkStock offer_id 0) offer_ids), offer_ids) /\
  forall date warehouse_id,
    Market.create_stocks date watch_remnants offer_ids warehouse_id
    = (Ok (map (fun offer_id =>
                  Market.stock_record warehouse_id date offer_id 0) offer_ids),
       offer_ids).
Proof.
  intros Hno. split; [|intros date warehouse_id];
    now apply create_stocks_with_unknown.
Qed.

Lemma create_stocks_without_known_code_witness :
  Seller.create_stocks [mkWatch "Z" "abc" "n/a"] scenario_offer_ids
  = (Ok [Seller.mkStock "A" 0; Seller.mkStock "B" 0; Seller.mkStock "C" 0],
     scenario_offer_ids).
Proof.
  apply (create_stocks_without_known_code [mkWatch "Z" "abc" "n/a"]
           scenario_offer_ids).
  intros w [<-|[]] [H|[H|[H|[]]]]; discriminate H.
Defined.

(** X5.  Whatever the offer ids, distinct or not, when [create_stocks]
    returns its records are those of the matched feed rows followed by one
    record with count 0 for every offer id the call leaves in the caller's
    list, in the order of that list; the ids of the matched records together
    with the ids left are the caller's ids, each as often as it was listed;
    and there are as many records as offer ids. *)
Theorem create_stocks_leaves_zero_filled_ids (watch_remnants : list Watch)
    (offer_ids : list string) :
  (forall stocks remaining,
     Seller.create_stocks watch_remnants offer_ids = (Ok stocks, remaining) ->
     exists rows,
       stocks = rows ++ map (fun offer_id => Seller.mkStock offer_id 0) remaining /\
       Permutation (map Seller.offer_id rows ++ remaining) offer_ids /\
       length stocks = length offer_ids /\
       Forall (fun s => exists watch,
                 In watch watch_remnants /\ code watch = Seller.offer_id s /\
                 stock_count (quantity watch) = Ok (Seller.stock s)) rows) /\
  (forall date warehouse_id stocks remaining,
     Market.create_stocks date watch_remnants offer_ids warehouse_id
     = (Ok stocks, remaining) ->
     exists rows,
       stocks = rows ++ map (fun offer_id =>
                               Market.stock_record warehouse_id date offer_id 0)
                          remaining /\
       Permutation (map Market.sku rows ++ remaining) offer_ids /\
       length stocks = length offer_ids /\
       Forall (fun s => exists watch,
                 In watch watch_remnants /\ code watch = Market.sku s /\
                 stock_count (quantity watch) = Ok (Market.first_count s)) rows).
Proof.
  split.
  - intros stocks remaining H.
    pose proof (create_stocks_with_Permutation _ Seller.mkStock Seller.offer_id
                  Seller.stock (fun _ _ => eq_refl) (fun _ _ => eq_refl)
                  _ _ _ _ H) as Hperm.
    apply create_stocks_with_ok in H as (rows & Hrows & ->).
    apply (match_rows_ok _ Seller.mkStock Seller.offer_id Seller.stock
             (fun _ _ => eq_refl) (fun _ _ => eq_refl))
      in Hrows as (Hp & Hall & _).
    exists rows. split; [reflexivity|]. split; [exact Hp|]. split.
    + rewrite <- (length_map Seller.offer_id). now apply Permutation_length.
    + eapply Forall_impl; [|exact Hall].
      intros s (w & Hw & Hn & Hs). exists w. repeat split; auto.
      now rewrite Hs.
  - intros date warehouse_id stocks remaining H.
    pose proof (create_stocks_with_Permutation _
                  (Market.stock_record warehouse_id date) Market.sku
                  Market.first_count (fun _ _ => eq_refl) (fun _ _ => eq_refl)
                  _ _ _ _ H) as Hperm.
    apply create_stocks_with_ok in H as (rows & Hrows & ->).
    apply (match_rows_ok _ (Market.stock_record warehouse_id date) Market.sku
             Market.first_count (fun _ _ => eq_refl) (fun _ _ => eq_refl))
      in Hrows as (Hp & Hall & _).
    exists rows. split; [reflexivity|]. split; [exact Hp|]. split.
    + rewrite <- (length_map Market.sku). now apply Permutation_length.
    + eapply Forall_impl; [|exact Hall].
      intros s (w & Hw & Hn & Hs). exists w. repeat split; auto.
      now rewrite Hs.
Qed.

Lemma create_stocks_leaves_zero_filled_ids_witness :
  exists rows,
    [Seller.mkStock "A" 100; Seller.mkStock "A" 7; Seller.mkStock "C" 0]
    = rows ++ map (fun offer_id => Seller.mkStock offer_id 0) ["C"] /\
    Permutation (map Seller.offer_id rows ++ ["C"]) ["A"; "C"; "A"] /\
    length [Seller.mkStock "A" 100; Seller.mkStock "A" 7; Seller.mkStock "C" 0]
    = length ["A"; "C"; "A"].
Proof.
  destruct (proj1 (create_stocks_leaves_zero_filled_ids duplicate_feed
                     ["A"; "C"; "A"])
              [Seller.mkStock "A" 100; Seller.mkStock "A" 7; Seller.mkStock "C" 0]
              ["C"] eq_refl) as (rows & Hrows & Hperm & Hlen & _).
  exists rows. auto.
Defined.

(** X6.  With distinct offer ids and distinct feed codes, the stock records
    come in feed order for the rows with a known code, then in the order of
    the caller's list for the offer ids no row carries; those offer ids, in
    that order, are what the call leaves in the caller's list. *)
Theorem create_stocks_order (watch_remnants : list Watch)
    (offer_ids : list string) :
  NoDup offer_ids ->
  NoDup (map code watch_remnants) ->
  (forall stocks remaining,
     Seller.create_stocks watch_remnants offer_ids = (Ok stocks, remaining) ->
     map Seller.offer_id stocks
     = filter (fun c => contains c offer_ids) (map code watch_remnants)
       ++ remaining /\
     remaining
     = filter (fun offer_id =>
                 negb (contains offer_id (map code watch_remnants))) offer_ids) /\
  (forall date warehouse_id stocks remaining,
     Market.create_stocks date watch_remnants offer_ids warehouse_id
     = (Ok stocks, remaining) ->
     map Market.sku stocks
     = filter (fun c => contains c offer_ids) (map code watch_remnants)
       ++ remaining /\
     remaining
     = filter (fun offer_id =>
                 negb (contains offer_id (map code watch_remnants))) offer_ids).
Proof.
  intros Hids Hcodes. split.
  - intros stocks remaining H.
    apply create_stocks_with_ok in H as (rows & Hrows & ->).
    rewrite map_app, map_map. cbn [Seller.offer_id]. rewrite map_id.
    rewrite (match_rows_feed_order _ Seller.mkStock Seller.offer_id
               (fun _ _ => eq_refl) _ _ _ _ Hcodes Hrows).
    split; [reflexivity|].
    exact (match_rows_remaining _ _ _ _ _ _ _ Hids Hrows).
  - intros date warehouse_id stocks remaining H.
    apply create_stocks_with_ok in H as (rows & Hrows & ->).
    rewrite map_app, map_map. cbn [Market.sku Market.stock_record].
    rewrite map_id.
    rewrite (match_rows_feed_order _ (Market.stock_record warehouse_id date)
               Market.sku (fun _ _ => eq_refl) _ _ _ _ Hcodes Hrows).
    split; [reflexivity|].
    exact (match_rows_remaining _ _ _ _ _ _ _ Hids Hrows).
Qed.

Lemma create_stocks_order_witness :
  NoDup scenario_offer_ids /\ NoDup (map code scenario_feed) /\
  map Seller.offer_id
    [Seller.mkStock "A" 100; Seller.mkStock "B" 0; Seller.mkStock "C" 0]
  = filter (fun c => contains c scenario_offer_ids) (map code scenario_feed)
    ++ ["C"].
Proof.
  assert (Hcodes : NoDup (map code scenario_feed)).
  { repeat constructor; simpl; intuition discriminate. }
  split; [exact NoDup_scenario_offer_ids|]. split; [exact Hcodes|].
  apply (proj1 (create_stocks_order scenario_feed scenario_offer_ids
                  NoDup_scenario_offer_ids Hcodes)
           [Seller.mkStock "A" 100; Seller.mkStock "B" 0; Seller.mkStock "C" 0]
           ["C"] eq_refl).
Defined.

Lemma create_stocks_with_stops (Stock : Type) (record : string -> Z -> Stock)
    (before after : list Watch) (watch : Watch) (offer_ids : list string)
    (stocks : list Stock) (remaining : list string) (e : exn) :
  create_stocks_with record before offer_ids = (Ok stocks, remaining) ->
  In (code watch) remaining ->
  stock_count (quantity watch) = Raise e ->
  create_stocks_with record (before ++ watch :: after) offer_ids
  = (Raise e, remaining).
Proof.
  unfold create_stocks_with. intros H Hin Hbad.
  rewrite match_rows_app.
  destruct (match_rows record before offer_ids []) as [[rows|e0] rem];
    [|discriminate].
  injection H as _ <-. simpl.
  apply contains_In in Hin. now rewrite Hin, Hbad.
Qed.

(** X7.  A call of [create_stocks] that raises has already changed the
    caller's list: when the rows before the failing one are processed
    without error and leave the failing row's code in the list, the call
    raises at that row and leaves the list as those earlier rows left it,
    without the offer ids they matched. *)
Theorem create_stocks_failure_keeps_removals (before after : list Watch)
    (watch : Watch) (offer_ids : list string) (e : exn) :
  stock_count (quantity watch) = Raise e ->
  (forall stocks remaining,
     Seller.create_stocks before offer_ids = (Ok stocks, remaining) ->
     In (code watch) remaining ->
     Seller.create_stocks (before ++ watch :: after) offer_ids
     = (Raise e, remaining)) /\
  (forall date warehouse_id stocks remaining,
     Market.create_stocks date before offer_ids warehouse_id
     = (Ok stocks, remaining) ->
     In (code watch) remaining ->
     Market.create_stocks date (before ++ watch :: after) offer_ids warehouse_id
     = (Raise e, remaining)).
Proof.
  intros Hbad. split.
  - intros stocks remaining H Hin.
    exact (create_stocks_with_stops _ _ _ _ _ _ _ _ _ H Hin Hbad).
  - intros date warehouse_id stocks remaining H Hin.
    exact (create_stocks_with_stops _ _ _ _ _ _ _ _ _ H Hin Hbad).
Qed.

Lemma create_stocks_failure_keeps_removals_witness :
  stock_count "abc" = Raise ValueError /\
  Seller.create_stocks
    ([mkWatch "A" ">10" "100.00"] ++ mkWatch "B" "abc" "50.00" :: [])
    scenario_offer_ids
  = (Raise ValueError, ["B"; "C"]).
Proof.
  split; [reflexivity|].
  apply (proj1 (create_stocks_failure_keeps_removals
                  [mkWatch "A" ">10" "100.00"] [] (mkWatch "B" "abc" "50.00")
                  scenario_offer_ids ValueError eq_refl)
           [Seller.mkStock "A" 100; Seller.mkStock "B" 0; Seller.mkStock "C" 0]
           ["B"; "C"]).
  - reflexivity.
  - simpl. auto.
Defined.

(** ** Price records: which rows, in which order, and when *)

Section CreatePricesOrder.

Variable Price : Type.
Variable record : Watch -> result Price.
Variable id_of : Price -> string.
Hypothesis id_of_record : forall watch p, record watch = Ok p -> id_of p = code watch.

Lemma create_prices_with_ids (watch_remnants : list Watch)
    (offer_ids : list string) :
  forall prices,
    create_prices_with record watch_remnants offer_ids = Ok prices ->
    map id_of prices
    = filter (fun c => contains c offer_ids) (map code watch_remnants).
Proof.
  induction watch_remnants as [|w rest IH]; intros prices H.
  - injection H as <-. reflexivity.
  - rewrite create_prices_with_cons in H. cbn [map filter].
    destruct (contains (code w) offer_ids); [|now apply IH].
    destruct (record w) as [p|e] eqn:Hp; simpl in H; [|discriminate].
    destruct (create_prices_with record rest offer_ids) as [ps|e];
      simpl in H; [|discriminate].
    injection H as <-. cbn [map]. rewrite (id_of_record _ _ Hp). f_equal.
    now apply IH.
Qed.

Lemma create_prices_with_members (watch_remnants : list Watch)
    (ids1 ids2 : list string) :
  (forall offer_id, In offer_id ids1 <-> In offer_id ids2) ->
  create_prices_with record watch_remnants ids1
  = create_prices_with record watch_remnants ids2.
Proof.
  intros Hsame.
  assert (Hcontains : forall c, contains c ids1 = contains c ids2).
  { intros c. destruct (contains c ids2) eqn:H2.
    - apply contains_In, Hsame. now apply contains_In.
    - apply contains_not_In. apply contains_not_In in H2.
      intros H1. apply H2, Hsame, H1. }
  induction watch_remnants as [|w rest IH]; [reflexivity|].
  rewrite !create_prices_with_cons, Hcontains, IH. reflexivity.
Qed.

Lemma create_prices_with_returns (watch_remnants : list Watch)
    (offer_ids : list string) :
  (forall watch, In watch watch_remnants -> In (code watch) offer_ids ->
                 exists p, record watch = Ok p) ->
  exists prices, create_prices_with record watch_remnants offer_ids = Ok prices.
Proof.
  induction watch_remnants as [|w rest IH]; intros Hall; [now exists []|].
  rewrite create_prices_with_cons.
  destruct IH as [prices IH].
  { intros w' Hw'. apply Hall. now right. }
  destruct (contains (code w) offer_ids) eqn:Hin; [|now exists prices].
  apply contains_In in Hin.
  destruct (Hall w (or_introl eq_refl) Hin) as [p ->].
  simpl. rewrite IH. simpl. eauto.
Qed.

End CreatePricesOrder.

Lemma seller_price_record_id (watch : Watch) (p : Seller.Price) :
  Seller.price_record watch = Ok p -> Seller.price_offer_id p = code watch.
Proof. intros H. injection H as <-. reflexivity. Qed.

Lemma market_price_record_id (watch : Watch) (p : Market.Price) :
  Market.price_record watch = Ok p -> Market.id p = code watch.
Proof.
  unfold Market.price_record.
  destruct (int (price_conversion (price_text watch))); simpl; [|discriminate].
  intros H. injection H as <-. reflexivity.
Qed.

(** X8.  When [create_prices] returns, it has built one price record for
    every feed row whose code is in the offer-id list, in feed order: a code
    that the feed carries several times gets as many price records. *)
Theorem create_prices_one_record_per_row (watch_remnants : list Watch)
    (offer_ids : list string) :
  (forall prices,
     Seller.create_prices watch_remnants offer_ids = Ok prices ->
     map Seller.price_offer_id prices
     = filter (fun c => contains c offer_ids) (map code watch_remnants)) /\
  (forall prices,
     Market.create_prices watch_remnants offer_ids = Ok prices ->
     map Market.id prices
     = filter (fun c => contains c offer_ids) (map code watch_remnants)).
Proof.
  split; intros prices H.
  - exact (create_prices_with_ids _ _ _ seller_price_record_id _ _ _ H).
  - exact (create_prices_with_ids _ _ _ market_price_record_id _ _ _ H).
Qed.

Lemma create_prices_one_record_per_row_witness :
  map Market.id
    [Market.mkPrice "A" (Market.mkPriceValue 100 "RUR");
     Market.mkPrice "A" (Market.mkPriceValue 120 "RUR");
     Market.mkPrice "B" (Market.mkPriceValue 50 "RUR")]
  = filter (fun c => contains c scenario_offer_ids) (map code duplicate_feed).
Proof.
  apply (proj2 (create_prices_one_record_per_row duplicate_feed
                  scenario_offer_ids)).
  reflexivity.
Defined.

(** X9.  [create_prices] uses its offer-id list for membership only: two
    lists with the same members, in whatever order and however often, give
    the same price records or the same error. *)
Theorem create_prices_depends_on_members (watch_remnants : list Watch)
    (ids1 ids2 : list string) :
  (forall offer_id, In offer_id ids1 <-> In offer_id ids2) ->
  Seller.create_prices watch_remnants ids1
  = Seller.create_prices watch_remnants ids2 /\
  Market.create_prices watch_remnants ids1
  = Market.create_prices watch_remnants ids2.
Proof.
  intros Hsame. split; now apply create_prices_with_members.
Qed.

Lemma create_prices_depends_on_members_witness :
  Market.create_prices scenario_feed ["C"; "B"; "A"; "B"]
  = Market.create_prices scenario_feed ["A"; "B"; "C"].
Proof.
  apply (create_prices_depends_on_members scenario_feed
           ["C"; "B"; "A"; "B"] ["A"; "B"; "C"]).
  intros offer_id. simpl. tauto.
Defined.

Lemma market_price_record_returns (watch : Watch) :
  (exists p, Market.price_record watch = Ok p) <->
  price_digits (price_text watch) <> [] /\
  len (price_digits (price_text watch)) <= int_max_str_digits.
Proof.
  rewrite market_price_record_digits.
  destruct (price_digits (price_text watch)) as [|c digits].
  - split; [intros [p H]; discriminate H | intros [H _]; contradiction].
  - cbv zeta.
    destruct (Z.gtb_spec (len (c :: digits)) int_max_str_digits) as [Hgt|Hle].
    + split; [intros [p H]; discriminate H | intros [_ H]; lia].
    + split; [intros _; split; [discriminate | exact Hle] | eauto].
Qed.

(** X10.  [create_prices] of [market.py] returns exactly when every feed row
    whose code is in the offer-id list has, before the first ["."] of its
    price text, at least one digit and no more digits than [int] reads
    ([int_max_str_digits]); the price texts of the other rows are not
    read. *)
Theorem market_create_prices_returns_iff (watch_remnants : list Watch)
    (offer_ids : list string) :
  (exists prices, Market.create_prices watch_remnants offer_ids = Ok prices) <->
  (forall watch, In watch watch_remnants -> In (code watch) offer_ids ->
                 price_digits (price_text watch) <> [] /\
                 len (price_digits (price_text watch)) <= int_max_str_digits).
Proof.
  split.
  - intros [prices H] w Hw Hin. apply market_price_record_returns.
    destruct (Market.price_record w) as [p|e] eqn:Hrec; [eauto|].
    destruct (create_prices_with_raises _ Market.price_record watch_remnants
                offer_ids w e Hw Hin Hrec) as [e' He'].
    unfold Market.create_prices in H. congruence.
  - intros Hall. apply create_prices_with_returns.
    intros w Hw Hin. apply market_price_record_returns. now apply Hall.
Qed.

Lemma market_create_prices_returns_iff_witness :
  exists prices,
    Market.create_prices (mkWatch "Z" "5" "n/a" :: scenario_feed)
      scenario_offer_ids = Ok prices.
Proof.
  apply (proj2 (market_create_prices_returns_iff
                  (mkWatch "Z" "5" "n/a" :: scenario_feed) scenario_offer_ids)).
  intros w [<-|[<-|[<-|[]]]] Hin.
  - simpl in Hin. destruct Hin as [H|[H|[H|[]]]]; discriminate H.
  - split; [discriminate | vm_compute; discriminate].
  - split; [discriminate | vm_compute; discriminate].
Defined.

(** ** The conversions, further *)

Lemma split_without_separator (sep : ascii) (l : list ascii) :
  ~ In sep l -> split sep l = [l].
Proof.
  induction l as [|c l IH]; intros Hno; simpl; [reflexivity|].
  destruct (Ascii.eqb_spec c sep) as [->|Hne].
  - exfalso. apply Hno. now left.
  - rewrite IH; [reflexivity|]. intros H. apply Hno. now right.
Qed.

Lemma split_at_first_separator (sep : ascii) (before after : list ascii) :
  ~ In sep before ->
  nth 0 (split sep (before ++ sep :: after)) [] = before.
Proof.
  induction before as [|c before IH]; intros Hno; simpl.
  - now rewrite Ascii.eqb_refl.
  - destruct (Ascii.eqb_spec c sep) as [->|Hne].
    + exfalso. apply Hno. now left.
    + assert (Hno' : ~ In sep before) by (intros H; apply Hno; now right).
      specialize (IH Hno').
      destruct (split sep (before ++ sep :: after)) as [|piece pieces];
        simpl in *; now subst.
Qed.

Lemma list_ascii_of_string_app (s t : string) :
  list_ascii_of_string (s ++ t)
  = list_ascii_of_string s ++ list_ascii_of_string t.
Proof. induction s as [|c s IH]; simpl; [reflexivity | now rewrite IH]. Qed.

Lemma digits_hold_no_dot (l : list ascii) :
  Forall (fun c => is_digit c = true) l -> ~ In "."%char l.
Proof.
  intros H Hin. rewrite Forall_forall in H. specialize (H _ Hin).
  discriminate H.
Qed.

(** X11.  [price_conversion] leaves its own results as they are: applied to
    a converted price it returns the same string. *)
Theorem price_conversion_idempotent (price : string) :
  price_conversion (price_conversion price) = price_conversion price.
Proof.
  rewrite (price_conversion_digits price).
  pose proof (price_digits_are_digits price) as Hdigits.
  rewrite price_conversion_digits. f_equal. unfold price_digits at 1.
  rewrite list_ascii_of_string_of_list_ascii.
  rewrite (split_without_separator _ _ (digits_hold_no_dot _ Hdigits)).
  cbn [nth]. apply filter_all. intros c Hc.
  rewrite Forall_forall in Hdigits. now apply Hdigits.
Qed.

(** X12.  [price_conversion] drops the first ["."] of the text and all that
    follows it, digits included: a text made of a part without ["."], a
    ["."] and anything else converts to what the first part alone converts
    to. *)
Theorem price_conversion_truncates (whole rest : string) :
  ~ In "."%char (list_ascii_of_string whole) ->
  price_conversion (whole ++ "." ++ rest) = price_conversion whole.
Proof.
  intros Hno. unfold price_conversion. do 2 f_equal.
  rewrite list_ascii_of_string_app. cbn [String.append list_ascii_of_string].
  rewrite (split_at_first_separator _ _ _ Hno).
  now rewrite (split_without_separator _ _ Hno).
Qed.

Lemma price_conversion_truncates_witness :
  ~ In "."%char (list_ascii_of_string "5'990") /\
  price_conversion ("5'990" ++ "." ++ "99 руб.") = price_conversion "5'990".
Proof.
  assert (Hno : ~ In "."%char (list_ascii_of_string "5'990")).
  { simpl. intuition discriminate. }
  split; [exact Hno|]. exact (price_conversion_truncates "5'990" "99 руб." Hno).
Defined.

(** X13.  For a quantity descriptor made of decimal digits only, other than
    ["1"], with no more digits than [int] reads ([int_max_str_digits]), the
    published count is the number the digits denote, which is not negative;
    only the text ["1"] itself is turned into 0.  With more digits the
    descriptor gives no count: [ValueError]. *)
Theorem stock_count_of_digits (descriptor : string) :
  Forall (fun c => is_digit c = true) (list_ascii_of_string descriptor) ->
  descriptor <> "" -> descriptor <> "1" ->
  (len (list_ascii_of_string descriptor) <= int_max_str_digits ->
   stock_count descriptor
   = Ok (decimal_value (list_ascii_of_string descriptor)) /\
   0 <= decimal_value (list_ascii_of_string descriptor)) /\
  (int_max_str_digits < len (list_ascii_of_string descriptor) ->
   stock_count descriptor = Raise ValueError).
Proof.
  intros Hdigits Hempty H1.
  assert (H10 : descriptor <> ">10").
  { intros ->. inversion Hdigits as [|c l Hc _]. discriminate Hc. }
  assert (Hint : stock_count descriptor
                 = if len (list_ascii_of_string descriptor)
                      >? int_max_str_digits
                   then Raise ValueError
                   else Ok (decimal_value (list_ascii_of_string descriptor))).
  { rewrite (stock_count_other _ H10 H1).
    rewrite <- (string_of_list_ascii_of_string descriptor) at 1.
    rewrite (int_of_digits _ Hdigits).
    destruct (list_ascii_of_string descriptor) eqn:Hchars; [|reflexivity].
    exfalso. apply Hempty.
    rewrite <- (string_of_list_ascii_of_string descriptor).
    now rewrite Hchars. }
  rewrite Hint.
  destruct (Z.gtb_spec (len (list_ascii_of_string descriptor))
              int_max_str_digits) as [Hgt|Hle].
  - split; [lia | reflexivity].
  - split; [|lia]. intros _.
    split; [reflexivity | now apply decimal_value_nonneg].
Qed.

Lemma stock_count_of_digits_witness :
  stock_count "01" = Ok (decimal_value (list_ascii_of_string "01")) /\
  decimal_value (list_ascii_of_string "01") = 1.
Proof.
  split; [|reflexivity].
  apply (stock_count_of_digits "01"); [|discriminate|discriminate|].
  - repeat constructor.
  - vm_compute. discriminate.
Defined.

(** ** Chunks, further *)

Lemma range_up_length (stop n : Z) (fuel : nat) :
  1 <= n ->
  forall i,
    stop - i <= Z.of_nat fuel ->
    Z.of_nat (length (range_up fuel i stop n))
    = Z.max 0 ((stop - i + n - 1) / n).
Proof.
  intros Hn. induction fuel as [|fuel IH]; intros i Hfuel; cbn [range_up].
  - cbn [length]. 
    assert ((stop - i + n - 1) / n <= 0).
    { apply Z.lt_succ_r. apply Z.div_lt_upper_bound; lia. }
    lia.
  - destruct (Z.ltb_spec i stop) as [Hlt|Hge].
    + cbn [length]. rewrite Nat2Z.inj_succ, IH by lia.
      replace (stop - i + n - 1) with ((stop - (i + n) + n - 1) + 1 * n) by lia.
      rewrite Z.div_add by lia.
      assert (0 <= (stop - (i + n) + n - 1) / n).
      { apply Z.div_pos; lia. }
      lia.
    + cbn [length].
      assert ((stop - i + n - 1) / n <= 0).
      { apply Z.lt_succ_r. apply Z.div_lt_upper_bound; lia. }
      lia.
Qed.

(** X14.  For a chunk size [n] of at least 1, [divide] yields
    [(len(lst) + n - 1) // n] chunks: the length of the list divided by the
    chunk size, rounded up; no chunk for an empty list. *)
Theorem divide_number_of_chunks (A : Type) (lst : list A) (n : Z) :
  1 <= n ->
  exists chunks,
    divide lst n = Ok chunks /\ len chunks = (len lst + n - 1) / n.
Proof.
  intros Hn. unfold divide, range0.
  destruct (Z.eqb_spec n 0); [lia|].
  destruct (Z.ltb_spec n 0); [lia|]. simpl.
  eexists. split; [reflexivity|].
  unfold len at 1. rewrite length_map.
  rewrite (range_up_length (len lst) n _ Hn 0) by (unfold len; lia).
  rewrite Z.sub_0_r.
  assert (0 <= (len lst + n - 1) / n).
  { apply Z.div_pos; unfold len; lia. }
  lia.
Qed.

Lemma divide_number_of_chunks_witness :
  1 <= 3 /\
  exists chunks,
    divide [1; 2; 3; 4; 5; 6; 7] 3 = Ok chunks /\ len chunks = 3.
Proof.
  assert (H : 1 <= 3) by lia.
  split; [exact H|]. exact (divide_number_of_chunks Z [1; 2; 3; 4; 5; 6; 7] 3 H).
Defined.

(** ** The upload pipelines, further *)

Lemma for_each_accepted_inv (A : Type) (call : A -> result unit)
    (lst : list A) :
  for_each call lst = Ok tt -> Forall (fun x => call x = Ok tt) lst.
Proof.
  induction lst as [|x rest IH]; simpl; intros H; [constructor|].
  destruct (call x) as [[]|e] eqn:Hx; [|discriminate].
  constructor; [exact Hx | now apply IH].
Qed.

Lemma for_each_rejected (A : Type) (call : A -> result unit)
    (before after : list A) (x : A) (e : exn) :
  Forall (fun y => call y = Ok tt) before ->
  call x = Raise e ->
  for_each call (before ++ x :: after) = Raise e.
Proof.
  induction 1 as [|y before Hy _ IH]; intros Hx; simpl.
  - now rewrite Hx.
  - rewrite Hy. now apply IH.
Qed.

Lemma divide_inv (A : Type) (lst : list A) (n : Z) (chunks : list (list A)) :
  1 <= n ->
  divide lst n = Ok chunks ->
  concat chunks = lst /\ Forall (fun chunk => 1 <= len chunk <= n) chunks.
Proof.
  intros Hn. unfold divide, range0.
  destruct (Z.eqb_spec n 0); [lia|].
  destruct (Z.ltb_spec n 0); [lia|]. simpl.
  intros Hdiv. injection Hdiv as <-.
  destruct (chunks_from A lst n Hn (Z.to_nat (len lst)) 0) as (Hcat & Hall & _);
    [lia | simpl; unfold len; lia |].
  split; assumption.
Qed.

(** What a pipeline that returns has pushed: chunks of at most [n] records
    that the marketplace accepted and that make up the list. *)
Lemma pushed_chunks (A : Type) (update : list A -> result unit)
    (records : list A) (n : Z) (chunks : list (list A)) :
  1 <= n ->
  divide records n = Ok chunks ->
  for_each update chunks = Ok tt ->
  concat chunks = records /\
  Forall (fun chunk => 1 <= len chunk <= n /\ update chunk = Ok tt) chunks.
Proof.
  intros Hn Hdiv Hpush.
  destruct (divide_inv _ _ _ _ Hn Hdiv) as [Hcat Hlen].
  apply for_each_accepted_inv in Hpush.
  split; [exact Hcat|].
  rewrite Forall_forall in *. intros chunk Hc. split; auto.
Qed.

(** X15.  In [main] of [seller.py], when the offer ids fetched are distinct,
    the price list built after the stock list is empty whenever the [try]
    block completes, and the answers of the price endpoint do not change
    the outcome of the block: no feed row's price is pushed. *)
Theorem seller_main_pushes_no_price (net : Seller.Network)
    (update_stocks : list Seller.Stock -> result unit)
    (update_price : list Seller.Price -> result unit)
    (watch_remnants : list Watch) (offer_ids : list string) :
  Seller.get_offer_ids net = Ok offer_ids ->
  NoDup offer_ids ->
  (forall stocks prices,
     Seller.main_try net update_stocks update_price watch_remnants
     = Ok (stocks, prices) ->
     prices = [] /\
     fst (Seller.create_stocks watch_remnants offer_ids) = Ok stocks) /\
  (forall update_price',
     Seller.main_try net update_stocks update_price' watch_remnants
     = Seller.main_try net update_stocks update_price watch_remnants).
Proof.
  intros Hids Hnd.
  assert (Hmain : forall update,
    Seller.main_try net update_stocks update watch_remnants
    = stocks <- fst (Seller.create_stocks watch_remnants offer_ids) ;;
      chunks <- divide stocks 100 ;;
      _ <- for_each update_stocks chunks ;;
      Ok (stocks, [])).
  { intros update. unfold Seller.main_try. rewrite Hids. cbn [bind].
    destruct (Seller.create_stocks watch_remnants offer_ids)
      as [[stocks|e] remaining] eqn:Hcreated; cbn [bind fst]; [|reflexivity].
    destruct (divide stocks 100) as [chunks|e]; cbn [bind]; [|reflexivity].
    destruct (for_each update_stocks chunks) as [u|e]; cbn [bind];
      [|reflexivity].
    rewrite (create_prices_after_create_stocks _ _ _ _ Hnd Hcreated).
    reflexivity. }
  split.
  - intros stocks prices H. rewrite Hmain in H.
    apply bind_ok in H as (stocks' & Hstocks & H).
    apply bind_ok in H as (chunks & _ & H).
    apply bind_ok in H as (u & _ & H).
    injection H as <- <-. auto.
  - intros update_price'. now rewrite !Hmain.
Qed.

Lemma seller_main_pushes_no_price_witness :
  NoDup scenario_offer_ids /\
  Seller.main_try
    [Ok (Seller.mkPage [Seller.mkProduct 1 "A"; Seller.mkProduct 2 "B";
                        Seller.mkProduct 3 "C"] 3 "3")]
    (fun _ => Ok tt) (fun _ => Raise HTTPError) scenario_feed
  = Seller.main_try
      [Ok (Seller.mkPage [Seller.mkProduct 1 "A"; Seller.mkProduct 2 "B";
                          Seller.mkProduct 3 "C"] 3 "3")]
      (fun _ => Ok tt) (fun _ => Ok tt) scenario_feed.
Proof.
  split; [exact NoDup_scenario_offer_ids|].
  apply (proj2 (seller_main_pushes_no_price
                  [Ok (Seller.mkPage [Seller.mkProduct 1 "A";
                                      Seller.mkProduct 2 "B";
                                      Seller.mkProduct 3 "C"] 3 "3")]
                  (fun _ => Ok tt) (fun _ => Ok tt) scenario_feed
                  scenario_offer_ids eq_refl NoDup_scenario_offer_ids)).
Defined.

(** X16.  When [upload_prices] returns, it returns the price list that
    [create_prices] builds from the feed and the offer ids fetched, and it
    has pushed that list in chunks of at most 1000 records for [seller.py],
    500 for [market.py], every one accepted by the marketplace; the chunks
    together are the list. *)
Theorem upload_prices_result (watch_remnants : list Watch) :
  (forall net update_price prices,
     Seller.upload_prices net update_price watch_remnants = Ok prices ->
     exists offer_ids chunks,
       Seller.get_offer_ids net = Ok offer_ids /\
       Seller.create_prices watch_remnants offer_ids = Ok prices /\
       divide prices 1000 = Ok chunks /\
       concat chunks = prices /\
       Forall (fun chunk => 1 <= len chunk <= 1000 /\
                            update_price chunk = Ok tt) chunks) /\
  (forall net update_price prices,
     Market.upload_prices net update_price watch_remnants = Ok prices ->
     exists offer_ids chunks,
       Market.get_offer_ids net = Ok offer_ids /\
       Market.create_prices watch_remnants offer_ids = Ok prices /\
       divide prices 500 = Ok chunks /\
       concat chunks = prices /\
       Forall (fun chunk => 1 <= len chunk <= 500 /\
                            update_price chunk = Ok tt) chunks).
Proof.
  split.
  - intros net update_price prices H. unfold Seller.upload_prices in H.
    apply bind_ok in H as (offer_ids & Hids & H).
    apply bind_ok in H as (prices' & Hprices & H).
    apply bind_ok in H as (chunks & Hdiv & H).
    apply bind_ok in H as ([] & Hpush & H).
    injection H as <-.
    exists offer_ids, chunks. repeat (split; [assumption|]).
    apply (pushed_chunks _ update_price prices' 1000 chunks); auto. lia.
  - intros net update_price prices H. unfold Market.upload_prices in H.
    apply bind_ok in H as (offer_ids & Hids & H).
    apply bind_ok in H as (prices' & Hprices & H).
    apply bind_ok in H as (chunks & Hdiv & H).
    apply bind_ok in H as ([] & Hpush & H).
    injection H as <-.
    exists offer_ids, chunks. repeat (split; [assumption|]).
    apply (pushed_chunks _ update_price prices' 500 chunks); auto. lia.
Qed.

Lemma upload_prices_result_witness :
  exists offer_ids chunks,
    Market.get_offer_ids (map Ok market_pages) = Ok offer_ids /\
    Market.create_prices scenario_feed offer_ids
    = Ok [Market.mkPrice "A" (Market.mkPriceValue 100 "RUR");
          Market.mkPrice "B" (Market.mkPriceValue 50 "RUR")] /\
    divide [Market.mkPrice "A" (Market.mkPriceValue 100 "RUR");
            Market.mkPrice "B" (Market.mkPriceValue 50 "RUR")] 500
    = Ok chunks.
Proof.
  destruct (proj2 (upload_prices_result scenario_feed)
              (map Ok market_pages) (fun _ => Ok tt)
              [Market.mkPrice "A" (Market.mkPriceValue 100 "RUR");
               Market.mkPrice "B" (Market.mkPriceValue 50 "RUR")] eq_refl)
    as (offer_ids & chunks & Hids & Hprices & Hdiv & _).
  exists offer_ids, chunks. auto.
Defined.

(** X17.  When [upload_stocks] returns, it has pushed the whole stock list,
    zero-filled records included, in chunks of at most 100 records for
    [seller.py], 2000 for [market.py], every one accepted by the
    marketplace; the chunks together are the list. *)
Theorem upload_stocks_pushes_bounded_chunks (watch_remnants : list Watch) :
  (forall net update_stocks not_empty stocks,
     Seller.upload_stocks net update_stocks watch_remnants
     = Ok (not_empty, stocks) ->
     exists chunks,
       divide stocks 100 = Ok chunks /\
       concat chunks = stocks /\
       Forall (fun chunk => 1 <= len chunk <= 100 /\
                            update_stocks chunk = Ok tt) chunks) /\
  (forall date net update_stocks warehouse_id not_empty stocks,
     Market.upload_stocks date net update_stocks watch_remnants warehouse_id
     = Ok (not_empty, stocks) ->
     exists chunks,
       divide stocks 2000 = Ok chunks /\
       concat chunks = stocks /\
       Forall (fun chunk => 1 <= len chunk <= 2000 /\
                            update_stocks chunk = Ok tt) chunks).
Proof.
  split.
  - intros net update_stocks not_empty stocks H.
    unfold Seller.upload_stocks in H.
    apply bind_ok in H as (offer_ids & _ & H).
    apply bind_ok in H as (stocks' & _ & H).
    apply bind_ok in H as (chunks & Hdiv & H).
    apply bind_ok in H as ([] & Hpush & H).
    injection H as _ <-.
    exists chunks. split; [assumption|].
    apply (pushed_chunks _ update_stocks stocks' 100 chunks); auto. lia.
  - intros date net update_stocks warehouse_id not_empty stocks H.
    unfold Market.upload_stocks in H.
    apply bind_ok in H as (offer_ids & _ & H).
    apply bind_ok in H as (stocks' & _ & H).
    apply bind_ok in H as (chunks & Hdiv & H).
    apply bind_ok in H as ([] & Hpush & H).
    apply bind_ok in H as (kept & _ & H).
    injection H as _ <-.
    exists chunks. split; [assumption|].
    apply (pushed_chunks _ update_stocks stocks' 2000 chunks); auto. lia.
Qed.

Lemma upload_stocks_pushes_bounded_chunks_witness :
  exists chunks,
    divide [Seller.mkStock "A" 100; Seller.mkStock "B" 0; Seller.mkStock "A" 0]
      100 = Ok chunks /\
    concat chunks
    = [Seller.mkStock "A" 100; Seller.mkStock "B" 0; Seller.mkStock "A" 0].
Proof.
  destruct (proj1 (upload_stocks_pushes_bounded_chunks scenario_feed)
              (map Ok ozon_pages) (fun _ => Ok tt)
              [Seller.mkStock "A" 100]
              [Seller.mkStock "A" 100; Seller.mkStock "B" 0;
               Seller.mkStock "A" 0] eq_refl)
    as (chunks & Hdiv & Hcat & _).
  exists chunks. auto.
Defined.

(** X18.  When the marketplace rejects a chunk after accepting the chunks
    before it, the upload raises the error of that chunk; neither the chunks
    that follow nor the answers they would get change that. *)
Theorem upload_stops_at_rejected_chunk (watch_remnants : list Watch)
    (e : exn) :
  (forall net update_stocks offer_ids stocks before chunk after,
     Seller.get_offer_ids net = Ok offer_ids ->
     fst (Seller.create_stocks watch_remnants offer_ids) = Ok stocks ->
     divide stocks 100 = Ok (before ++ chunk :: after) ->
     Forall (fun c => update_stocks c = Ok tt) before ->
     update_stocks chunk = Raise e ->
     Seller.upload_stocks net update_stocks watch_remnants = Raise e) /\
  (forall net update_price offer_ids prices before chunk after,
     Seller.get_offer_ids net = Ok offer_ids ->
     Seller.create_prices watch_remnants offer_ids = Ok prices ->
     divide prices 1000 = Ok (before ++ chunk :: after) ->
     Forall (fun c => update_price c = Ok tt) before ->
     update_price chunk = Raise e ->
     Seller.upload_prices net update_price watch_remnants = Raise e) /\
  (forall date net update_stocks warehouse_id offer_ids stocks
          before chunk after,
     Market.get_offer_ids net = Ok offer_ids ->
     fst (Market.create_stocks date watch_remnants offer_ids warehouse_id)
     = Ok stocks ->
     divide stocks 2000 = Ok (before ++ chunk :: after) ->
     Forall (fun c => update_stocks c = Ok tt) before ->
     update_stocks chunk = Raise e ->
     Market.upload_stocks date net update_stocks watch_remnants warehouse_id
     = Raise e) /\
  (forall net update_price offer_ids prices before chunk after,
     Market.get_offer_ids net = Ok offer_ids ->
     Market.create_prices watch_remnants offer_ids = Ok prices ->
     divide prices 500 = Ok (before ++ chunk :: after) ->
     Forall (fun c => update_price c = Ok tt) before ->
     update_price chunk = Raise e ->
     Market.upload_prices net update_price watch_remnants = Raise e).
Proof.
  split; [|split; [|split]].
  - intros net update offer_ids stocks before chunk after
      Hids Hstocks Hdiv Hbefore Hchunk.
    unfold Seller.upload_stocks.
    rewrite Hids. cbn [bind]. rewrite Hstocks. cbn [bind].
    rewrite Hdiv. cbn [bind].
    now rewrite (for_each_rejected _ update before after chunk e Hbefore Hchunk).
  - intros net update offer_ids prices before chunk after
      Hids Hprices Hdiv Hbefore Hchunk.
    unfold Seller.upload_prices.
    rewrite Hids. cbn [bind]. rewrite Hprices. cbn [bind].
    rewrite Hdiv. cbn [bind].
    now rewrite (for_each_rejected _ update before after chunk e Hbefore Hchunk).
  - intros date net update warehouse_id offer_ids stocks before chunk after
      Hids Hstocks Hdiv Hbefore Hchunk.
    unfold Market.upload_stocks.
    rewrite Hids. cbn [bind]. rewrite Hstocks. cbn [bind].
    rewrite Hdiv. cbn [bind].
    now rewrite (for_each_rejected _ update before after chunk e Hbefore Hchunk).
  - intros net update offer_ids prices before chunk after
      Hids Hprices Hdiv Hbefore Hchunk.
    unfold Market.upload_prices.
    rewrite Hids. cbn [bind]. rewrite Hprices. cbn [bind].
    rewrite Hdiv. cbn [bind].
    now rewrite (for_each_rejected _ update before after chunk e Hbefore Hchunk).
Qed.

Lemma upload_stops_at_rejected_chunk_witness :
  Seller.upload_prices (map Ok ozon_pages) (fun _ => Raise HTTPError)
    scenario_feed
  = Raise HTTPError.
Proof.
  apply (proj1 (proj2 (upload_stops_at_rejected_chunk scenario_feed HTTPError))
           (map Ok ozon_pages) (fun _ => Raise HTTPError) ["A"; "B"; "A"]
           [Seller.mkPrice "UNKNOWN" "RUB" "A" "0" "100";
            Seller.mkPrice "UNKNOWN" "RUB" "B" "0" "50"]
           []
           [Seller.mkPrice "UNKNOWN" "RUB" "A" "0" "100";
            Seller.mkPrice "UNKNOWN" "RUB" "B" "0" "50"]
           []); try reflexivity.
  constructor.
Defined.

(** X20.  [upload_prices] returns the price list when the offer ids are
    fetched, [create_prices] returns and the marketplace accepts every
    chunk.  For [seller.py] the middle condition always holds: no price
    text, not even one without digits, makes its [upload_prices] fail. *)
Theorem upload_prices_returns (watch_remnants : list Watch) :
  (forall net update_price offer_ids,
     Seller.get_offer_ids net = Ok offer_ids ->
     (forall chunk, update_price chunk = Ok tt) ->
     exists prices,
       Seller.create_prices watch_remnants offer_ids = Ok prices /\
       Seller.upload_prices net update_price watch_remnants = Ok prices) /\
  (forall net update_price offer_ids prices,
     Market.get_offer_ids net = Ok offer_ids ->
     Market.create_prices watch_remnants offer_ids = Ok prices ->
     (forall chunk, update_price chunk = Ok tt) ->
     Market.upload_prices net update_price watch_remnants = Ok prices).
Proof.
  split.
  - intros net update_price offer_ids Hids Hupdate.
    destruct (seller_create_prices_returns watch_remnants offer_ids)
      as [prices Hprices].
    exists prices. split; [exact Hprices|].
    unfold Seller.upload_prices. rewrite Hids. cbn [bind].
    rewrite Hprices. cbn [bind].
    destruct (divide_returns _ prices 1000) as [chunks ->]; [lia|]. cbn [bind].
    now rewrite (for_each_accepted _ update_price chunks Hupdate).
  - intros net update_price offer_ids prices Hids Hprices Hupdate.
    unfold Market.upload_prices. rewrite Hids. cbn [bind].
    rewrite Hprices. cbn [bind].
    destruct (divide_returns _ prices 500) as [chunks ->]; [lia|]. cbn [bind].
    now rewrite (for_each_accepted _ update_price chunks Hupdate).
Qed.

Lemma upload_prices_returns_witness :
  exists prices,
    Seller.create_prices [mkWatch "A" "5" "n/a"] ["A"; "B"; "A"] = Ok prices /\
    Seller.upload_prices (map Ok ozon_pages) (fun _ => Ok tt)
      [mkWatch "A" "5" "n/a"] = Ok prices.
Proof.
  apply (proj1 (upload_prices_returns [mkWatch "A" "5" "n/a"])
           (map Ok ozon_pages) (fun _ => Ok tt) ["A"; "B"; "A"]).
  - reflexivity.
  - reflexivity.
Defined.

(** ** [main] of [market.py] *)

(** X19.  The [try] block of [main] in [market.py] does what two calls of
    [upload_stocks] do, for FBS and then for DBS: it raises what the first
    failing one raises, without starting the DBS pass when the FBS pass
    fails, and otherwise ends with their two stock lists.  It builds no
    price record: two feeds with the same codes and quantity descriptors
    give the same outcome, whatever their price texts. *)
Theorem market_main_is_two_stock_uploads
    (date_fbs date_dbs : string) (net_fbs net_dbs : Market.Network)
    (update_stocks_fbs update_stocks_dbs : list Market.Stock -> result unit)
    (warehouse_fbs_id warehouse_dbs_id : string) :
  (forall watch_remnants,
     Market.main_try date_fbs date_dbs net_fbs net_dbs update_stocks_fbs
       update_stocks_dbs watch_remnants warehouse_fbs_id warehouse_dbs_id
     = fbs <- Market.upload_stocks date_fbs net_fbs update_stocks_fbs
                watch_remnants warehouse_fbs_id ;;
       dbs <- Market.upload_stocks date_dbs net_dbs update_stocks_dbs
                watch_remnants warehouse_dbs_id ;;
       Ok (snd fbs, snd dbs)) /\
  (forall feed1 feed2,
     map code feed1 = map code feed2 ->
     map quantity feed1 = map quantity feed2 ->
     Market.main_try date_fbs date_dbs net_fbs net_dbs update_stocks_fbs
       update_stocks_dbs feed1 warehouse_fbs_id warehouse_dbs_id
     = Market.main_try date_fbs date_dbs net_fbs net_dbs update_stocks_fbs
         update_stocks_dbs feed2 warehouse_fbs_id warehouse_dbs_id).
Proof.
  assert (Hpass : forall date net update watch_remnants warehouse_id
                         (B : Type) (k : list Market.Stock -> result B),
    (r <- Market.upload_stocks date net update watch_remnants warehouse_id ;;
     k (snd r))
    = (offer_ids <- Market.get_offer_ids net ;;
       stocks <- fst (Market.create_stocks date watch_remnants offer_ids
                        warehouse_id) ;;
       chunks <- divide stocks 2000 ;;
       _ <- for_each update chunks ;;
       k stocks)).
  { intros date net update watch_remnants warehouse_id B k.
    unfold Market.upload_stocks.
    destruct (Market.get_offer_ids net) as [offer_ids|e]; cbn [bind];
      [|reflexivity].
    destruct (fst (Market.create_stocks date watch_remnants offer_ids
                     warehouse_id)) as [stocks|e] eqn:Hstocks; cbn [bind];
      [|reflexivity].
    destruct (divide stocks 2000) as [chunks|e]; cbn [bind]; [|reflexivity].
    destruct (for_each update chunks) as [u|e]; cbn [bind]; [|reflexivity].
    rewrite (market_count_not_zero _ _ _ _ _ Hstocks). reflexivity. }
  assert (Hmain : forall watch_remnants,
     Market.main_try date_fbs date_dbs net_fbs net_dbs update_stocks_fbs
       update_stocks_dbs watch_remnants warehouse_fbs_id warehouse_dbs_id
     = fbs <- Market.upload_stocks date_fbs net_fbs update_stocks_fbs
                watch_remnants warehouse_fbs_id ;;
       dbs <- Market.upload_stocks date_dbs net_dbs update_stocks_dbs
                watch_remnants warehouse_dbs_id ;;
       Ok (snd fbs, snd dbs)).
  { intros watch_remnants.
    rewrite (Hpass date_fbs net_fbs update_stocks_fbs watch_remnants
               warehouse_fbs_id _
               (fun stocks_fbs =>
                  dbs <- Market.upload_stocks date_dbs net_dbs
                           update_stocks_dbs watch_remnants warehouse_dbs_id ;;
                  Ok (stocks_fbs, snd dbs))).
    unfold Market.main_try.
    destruct (Market.get_offer_ids net_fbs) as [ids1|e]; cbn [bind];
      [|reflexivity].
    destruct (fst (Market.create_stocks date_fbs watch_remnants ids1
                     warehouse_fbs_id)) as [stocks1|e]; cbn [bind];
      [|reflexivity].
    destruct (divide stocks1 2000) as [chunks1|e]; cbn [bind]; [|reflexivity].
    destruct (for_each update_stocks_fbs chunks1) as [u|e]; cbn [bind];
      [|reflexivity].
    now rewrite (Hpass date_dbs net_dbs update_stocks_dbs watch_remnants
                   warehouse_dbs_id _ (fun stocks_dbs => Ok (stocks1, stocks_dbs))). }
  split; [exact Hmain|].
  intros feed1 feed2 Hc Hq. unfold Market.main_try.
  assert (Hsame : forall date offer_ids warehouse_id,
            Market.create_stocks date feed1 offer_ids warehouse_id
            = Market.create_stocks date feed2 offer_ids warehouse_id).
  { intros date offer_ids warehouse_id.
    unfold Market.create_stocks, create_stocks_with.
    now rewrite (match_rows_ignores_price _ _ feed1 feed2 offer_ids [] Hc Hq). }
  destruct (Market.get_offer_ids net_fbs) as [ids1|e]; cbn [bind];
    [|reflexivity].
  rewrite Hsame.
  destruct (fst (Market.create_stocks date_fbs feed2 ids1 warehouse_fbs_id))
    as [stocks1|e]; cbn [bind]; [|reflexivity].
  destruct (divide stocks1 2000) as [chunks1|e]; cbn [bind]; [|reflexivity].
  destruct (for_each update_stocks_fbs chunks1) as [u|e]; cbn [bind];
    [|reflexivity].
  destruct (Market.get_offer_ids net_dbs) as [ids2|e]; cbn [bind];
    [|reflexivity].
  now rewrite Hsame.
Qed.

Lemma market_main_is_two_stock_uploads_witness :
  Market.main_try "2022-01-01T00:00:00Z" "2022-01-01T00:00:05Z"
    (map Ok market_pages) (map Ok market_pages) (fun _ => Ok tt)
    (fun _ => Ok tt) [mkWatch "A" ">10" "n/a"] "fbs" "dbs"
  = Market.main_try "2022-01-01T00:00:00Z" "2022-01-01T00:00:05Z"
      (map Ok market_pages) (map Ok market_pages) (fun _ => Ok tt)
      (fun _ => Ok tt) [mkWatch "A" ">10" "100.00 р."] "fbs" "dbs".
Proof.
  apply (proj2 (market_main_is_two_stock_uploads
                  "2022-01-01T00:00:00Z" "2022-01-01T00:00:05Z"
                  (map Ok market_pages) (map Ok market_pages)
                  (fun _ => Ok tt) (fun _ => Ok tt) "fbs" "dbs"));
    reflexivity.
Defined.
